(** * get_performance.py: feature-set selection, evaluation and result cache

    A shallow embedding of [src/get_performance.py].  Python strings are
    [string] (one character is one code point, below 256), Python
    integers are [Z], the file system is a finite map
    from resolved paths to nodes, and the effects of the script (file
    system, printed lines, calls into numpy / pandas / scikit-learn /
    xgboost) are threaded through a state-and-exception monad. *)

From Stdlib Require Import ZArith Lia Permutation Ascii.
From stdpp Require Import gmap strings list fin_maps pretty.

Local Open Scope Z_scope.

(** ** Python string operations used by the script *)

Module Py.

(** [x.startswith(p)] *)
Definition startswith (x p : string) : bool := String.prefix p x.

(** [x.endswith(p)] *)
Fixpoint endswith (x p : string) : bool :=
  String.eqb x p
  || match x with
     | EmptyString => false
     | String _ rest => endswith rest p
     end.

(** [needle in hay] on two strings: substring test. *)
Fixpoint contains (needle hay : string) : bool :=
  String.prefix needle hay
  || match hay with
     | EmptyString => false
     | String _ rest => contains needle rest
     end.

(** [x in [s1, ..., sn]] on a list of strings. *)
Definition str_in (x : string) (l : list string) : bool :=
  existsb (String.eqb x) l.

(** [x in [n1, ..., nk]] on a list of integers. *)
Definition int_in (x : Z) (l : list Z) : bool :=
  existsb (Z.eqb x) l.

(** [np.arange(lo, hi)]: the integers [lo], ..., [hi - 1]. *)
Definition arange (lo hi : Z) : list Z := seqZ lo (hi - lo).

(** [f'{n:02}']: decimal, zero-padded to width two; the sign counts
    for the width, so only [0] .. [9] get a padding zero. *)
Definition fmt02 (n : Z) : string :=
  if (0 <=? n) && (n <? 10) then "0" +:+ pretty n else pretty n.

(** [s.isascii()]: every character is a code point below 128. *)
Fixpoint isascii (s : string) : bool :=
  match s with
  | EmptyString => true
  | String c rest => (N_of_ascii c <? 128)%N && isascii rest
  end.

(** [c in s] for a character [c]. *)
Fixpoint has_char (c : ascii) (s : string) : bool :=
  match s with
  | EmptyString => false
  | String d rest => Ascii.eqb c d || has_char c rest
  end.

(** [c.isprintable()] for a code point below 256: the letters, digits,
    punctuation and symbols and the ASCII space; not the control
    characters (0-31, 127-159), the no-break space (160) and the soft
    hyphen (173). *)
Definition isprintable (c : ascii) : bool :=
  let n := N_of_ascii c in
  ((32 <=? n) && (n <? 127) || (161 <=? n) && negb (n =? 173))%N.

(** The escape [\xhh] of a code point below 256, in lower-case
    hexadecimal. *)
Definition hex_digit (n : N) : ascii :=
  default "0"%char (String.get (N.to_nat n) "0123456789abcdef").

Definition hex_escape (c : ascii) : string :=
  let n := N_of_ascii c in
  String "092" (String "x" (String (hex_digit (n / 16))
                              (String (hex_digit (n mod 16)) EmptyString))).

(** The quote [repr] puts around a string: the double quote (34) when
    the string holds a single quote (39) and no double quote, the single
    quote otherwise. *)
Definition repr_quote (s : string) : ascii :=
  if has_char "039" s && negb (has_char "034" s) then "034"%char
  else "039"%char.

(** One character inside [repr]: the quote in use and the backslash
    (92) get a backslash, tab, line feed and carriage return are
    [\t], [\n] and [\r], the other characters that are not printable
    are hexadecimal escapes, and the rest stands for itself. *)
Definition repr_char (quote c : ascii) : string :=
  if Ascii.eqb c quote || Ascii.eqb c "092" then
    String "092" (String c EmptyString)
  else if Ascii.eqb c "009" then String "092" "t"
  else if Ascii.eqb c "010" then String "092" "n"
  else if Ascii.eqb c "013" then String "092" "r"
  else if isprintable c then String c EmptyString
  else hex_escape c.

Fixpoint repr_body (quote : ascii) (s : string) : string :=
  match s with
  | EmptyString => EmptyString
  | String c rest => repr_char quote c +:+ repr_body quote rest
  end.

(** [repr(s)] of a string, which is what [f'{s=}'] formats after the
    name and the equals sign. *)
Definition repr (s : string) : string :=
  let quote := repr_quote s in
  String quote (repr_body quote s +:+ String quote EmptyString).

End Py.

(** ** Feature selector (lines 31-55 of [predict]) *)

Definition static_features : list string :=
  ["aa.npy"; "cn.npy"; "jc.npy"; "pa.npy"].

Definition check_I (x : string) : bool :=
  Py.str_in x static_features.

Definition check_II_A (x : string) : bool :=
  negb (Py.startswith x "na").

Definition check_II_B (x : string) : bool :=
  (Py.str_in x static_features || Py.contains "_q100" x)
  && negb (Py.startswith x "na").

Definition check_III_A (x : string) : bool :=
  Py.startswith x "na".

Definition check_III_B (x : string) : bool :=
  Py.startswith x "na" && Py.contains "_q100" x.

Definition check_I_II_A_III_A (x : string) : bool :=
  Py.startswith x "na"
  || Py.str_in x static_features
  || negb (Py.startswith x "na").

(** The [if] / [elif] chain; [None] is the final [else], which raises. *)
Definition select_check (feature_set : string) : option (string -> bool) :=
  if String.eqb feature_set "I" then Some check_I
  else if String.eqb feature_set "II-A" then Some check_II_A
  else if String.eqb feature_set "II-B" then Some check_II_B
  else if String.eqb feature_set "III-A" then Some check_III_A
  else if String.eqb feature_set "III-B" then Some check_III_B
  else if String.eqb feature_set "I+II-A+III-A" then Some check_I_II_A_III_A
  else None.

(** The six identifiers, in the order [single_all_features] runs them. *)
Definition feature_sets : list string :=
  ["I"; "II-A"; "II-B"; "III-A"; "III-B"; "I+II-A+III-A"].

(** ** Exceptions and results *)

Inductive exn : Type :=
| Exception (msg : string)        (* [raise Exception(msg)] *)
| AssertionError (msg : string)   (* a failed [assert cond, msg] *)
| OSError (path : string)         (* FileExistsError, NotADirectoryError,
                                     IsADirectoryError, FileNotFoundError *)
| LibraryError (msg : string).    (* raised inside numpy, pandas,
                                     scikit-learn or xgboost *)

Inductive outcome (A : Type) : Type :=
| Return (a : A)
| Raise (e : exn).
Arguments Return {A} a.
Arguments Raise {A} e.

(** ** Classifier variants (lines 78-96 of [predict]) *)

Inductive estimator : Type :=
| LogisticRegressionPipe (max_iter n_jobs random_state : Z)
    (* make_pipeline(StandardScaler(), LogisticRegression(...)) *)
| RandomForestPipe (random_state n_jobs : Z)
    (* make_pipeline(RandomForestClassifier(...)) *)
| XGBClassifier (n_jobs random_state : Z).
    (* XGBClassifier(..., use_label_encoder=False), fitted with
       eval_metric='logloss' *)

(** The [if clf == ...] chain; [None] is the final [else], which raises. *)
Definition make_pipe (clf : string) (random_state n_jobs : Z)
  : option estimator :=
  if String.eqb clf "LogisticRegression" then
    Some (LogisticRegressionPipe 10000 n_jobs random_state)
  else if String.eqb clf "RandomForest" then
    Some (RandomForestPipe random_state (if n_jobs <? 0 then 100 else n_jobs))
  else if String.eqb clf "XGBoost" then
    Some (XGBClassifier (if n_jobs <? 0 then 100 else n_jobs) random_state)
  else None.

(** The [n_jobs] keyword an estimator was constructed with. *)
Definition estimator_n_jobs (e : estimator) : Z :=
  match e with
  | LogisticRegressionPipe _ n _ => n
  | RandomForestPipe _ n => n
  | XGBClassifier n _ => n
  end.

(** ** The file system

    A path is the list of its components from the root; the file system
    maps the paths that exist to their node.  The root always exists and
    is a directory.  Symbolic links, permissions and the working
    directory are not modelled: a relative path is resolved from the
    root. *)

Abbreviation path := (list string).

Inductive node : Type :=
| Dir
| File (content : string).

Abbreviation filesystem := (gmap (list string) node).

Module Fs.

(** [s.split('/')] *)
Fixpoint split_slash (s : string) : list string :=
  match s with
  | EmptyString => [EmptyString]
  | String c rest =>
      if Ascii.eqb c "/"%char then EmptyString :: split_slash rest
      else match split_slash rest with
           | [] => [String c EmptyString]
           | h :: t => String c h :: t
           end
  end.

Definition node_at (fs : filesystem) (p : path) : option node :=
  match p with
  | [] => Some Dir
  | _ => fs !! p
  end.

Definition is_dir_node (o : option node) : bool :=
  match o with Some Dir => true | _ => false end.

Definition is_file_node (o : option node) : bool :=
  match o with Some (File _) => true | _ => false end.

(** One step of path resolution from the directory [cur]. *)
Definition step (cur : path) (c : string) : path :=
  if String.eqb c "" || String.eqb c "." then cur
  else if String.eqb c ".." then removelast cur
  else cur ++ [c].

(** Resolution of the components [comps] from [cur]: every component
    is looked up in a directory, so all nodes but the last have to be
    directories. *)
Fixpoint walk (fs : filesystem) (cur : path) (comps : list string)
  : option path :=
  match comps with
  | [] => Some cur
  | c :: rest =>
      if is_dir_node (node_at fs cur) then walk fs (step cur c) rest
      else None
  end.

Definition resolve (fs : filesystem) (s : string) : option path :=
  if String.eqb s "" then None else walk fs [] (split_slash s).

(** [os.path.isdir], [os.path.isfile]: false when resolution fails. *)
Definition isdir (fs : filesystem) (s : string) : bool :=
  match resolve fs s with
  | Some q => is_dir_node (node_at fs q)
  | None => false
  end.

Definition isfile (fs : filesystem) (s : string) : bool :=
  match resolve fs s with
  | Some q => is_file_node (node_at fs q)
  | None => false
  end.

(** [os.makedirs(s, exist_ok=True)]: every missing directory on the way
    is created; a regular file on the way (or at the end) is an error. *)
Fixpoint mkdirs (fs : filesystem) (cur : path) (comps : list string)
  : option filesystem :=
  match comps with
  | [] => if is_dir_node (node_at fs cur) then Some fs else None
  | c :: rest =>
      if is_dir_node (node_at fs cur) then
        let nxt := step cur c in
        match node_at fs nxt with
        | None => mkdirs (<[nxt := Dir]> fs) nxt rest
        | Some _ => mkdirs fs nxt rest
        end
      else None
  end.

Definition makedirs (fs : filesystem) (s : string) : option filesystem :=
  if String.eqb s "" then None else mkdirs fs [] (split_slash s).

(** [with open(s, 'w') as file: file.write(content)] *)
Definition write_text (fs : filesystem) (s content : string)
  : option filesystem :=
  match resolve fs s with
  | Some q =>
      match node_at fs q with
      | Some Dir => None
      | _ => Some (<[q := File content]> fs)
      end
  | None => None
  end.

(** The bytes of the regular file at [s]. *)
Definition read_bytes (fs : filesystem) (s : string) : option string :=
  match resolve fs s with
  | Some q =>
      match node_at fs q with
      | Some (File content) => Some content
      | _ => None
      end
  | None => None
  end.

Fixpoint strip_prefix (q k : path) : option path :=
  match q, k with
  | [], _ => Some k
  | x :: q', y :: k' => if String.eqb x y then strip_prefix q' k' else None
  | _ :: _, [] => None
  end.

Definition child_name (q : path) (entry : path * node) : option string :=
  match strip_prefix q entry.1 with
  | Some [c] => Some c
  | _ => None
  end.

(** [f.name for f in os.scandir(s)], in the order the map lists them
    (the order of [os.scandir] is arbitrary as well). *)
Definition scandir (fs : filesystem) (s : string) : option (list string) :=
  match resolve fs s with
  | Some q =>
      if is_dir_node (node_at fs q)
      then Some (omap (child_name q) (map_to_list fs))
      else None
  | None => None
  end.

(** [os.path.join(a, b)] of [posixpath]. *)
Definition join (a b : string) : string :=
  if Py.startswith b "/" then b
  else if String.eqb a "" || Py.endswith a "/" then a +:+ b
  else a +:+ "/" +:+ b.

End Fs.

(** ** The libraries the script calls

    numpy, pandas, scikit-learn and xgboost are outside the script: their
    values are abstract and each call either returns or raises. *)

Class Numerics : Type := {
  ndarray : Type;
  frame : Type;
  labels : Type;
  split : Type;
  auc_t : Type;
  (** [np.load] on the bytes of a file *)
  np_load : string -> outcome ndarray;
  (** [pd.DataFrame({name: array, ...})] *)
  DataFrame : list (string * ndarray) -> outcome frame;
  (** [pd.read_pickle(...).astype(int).values] on the bytes of a file *)
  read_pickle : string -> outcome labels;
  (** [train_test_split(X, y, random_state=...)] *)
  train_test_split : frame -> labels -> Z -> outcome split;
  (** [pipe.fit(X_train, y_train)] followed by
      [roc_auc_score(y_test, pipe.predict_proba(X_test)[:, 1])] *)
  fit_and_score : estimator -> split -> outcome auc_t;
  (** [str(auc)] *)
  str_auc : auc_t -> string
}.

(** ** The state of a run and its monad

    A run threads the file system and a log of what the script did: the
    lines it printed and the calls it made into the libraries. *)

Inductive event : Type :=
| Printed (line : string)
| NpLoad (path : string)
| ReadPickle (path : string)
| TrainTestSplit (random_state : Z)
| Fit (pipe : estimator).

Record world : Type := World {
  files : filesystem;
  log : list event
}.

Definition M (A : Type) : Type := world -> outcome A * world.

#[global] Instance M_ret : MRet M := fun A a w => (Return a, w).

#[global] Instance M_bind : MBind M := fun A B f m w =>
  match m w with
  | (Return a, w') => f a w'
  | (Raise e, w') => (Raise e, w')
  end.

Definition raise {A : Type} (e : exn) : M A := fun w => (Raise e, w).

(** [try: body / except: handler] with a bare [except]. *)
Definition try_except (body handler : M unit) : M unit := fun w =>
  match body w with
  | (Return a, w') => (Return a, w')
  | (Raise _, w') => handler w'
  end.

Definition emit (ev : event) : M unit := fun w =>
  (Return tt, World (files w) (log w ++ [ev])).

Definition print (line : string) : M unit := emit (Printed line).

(** A library call: its result or its exception. *)
Definition lift {A : Type} (r : outcome A) : M A := fun w => (r, w).

Definition assert_ (cond : bool) (msg : string) : M unit :=
  if cond then mret tt else raise (AssertionError msg).

(** [for x in l: body(x)] *)
Fixpoint for_ {A : Type} (l : list A) (body : A -> M unit) : M unit :=
  match l with
  | [] => mret tt
  | x :: rest => body x ;; for_ rest body
  end.

(** [[f(x) for x in l]], evaluated left to right. *)
Fixpoint for_collect {A B : Type} (l : list A) (f : A -> M B) : M (list B) :=
  match l with
  | [] => mret []
  | x :: rest => y ← f x; ys ← for_collect rest f; mret (y :: ys)
  end.

Module Os.

Definition isdir (s : string) : M bool := fun w =>
  (Return (Fs.isdir (files w) s), w).

Definition isfile (s : string) : M bool := fun w =>
  (Return (Fs.isfile (files w) s), w).

Definition makedirs (s : string) : M unit := fun w =>
  match Fs.makedirs (files w) s with
  | Some fs' => (Return tt, World fs' (log w))
  | None => (Raise (OSError s), w)
  end.

Definition scandir (s : string) : M (list string) := fun w =>
  match Fs.scandir (files w) s with
  | Some names => (Return names, w)
  | None => (Raise (OSError s), w)
  end.

Definition write_text (s content : string) : M unit := fun w =>
  match Fs.write_text (files w) s content with
  | Some fs' => (Return tt, World fs' (log w))
  | None => (Raise (OSError s), w)
  end.

Definition read_bytes (s : string) : M string := fun w =>
  match Fs.read_bytes (files w) s with
  | Some content => (Return content, w)
  | None => (Raise (OSError s), w)
  end.

End Os.

(** ** What the batch driver takes from outside the script

    [random.shuffle] under [random.seed(seed)] is a permutation of its
    argument; [ProgressParallel] is the helper of [progress_parallel.py],
    which runs the delayed calls on a pool of workers. *)

Class Runtime : Type := {
  shuffle : Z -> list Z -> list Z;
  shuffle_perm : forall seed l, Permutation (shuffle seed l) l;
  ProgressParallel : Z -> nat -> list (M unit) -> M unit
}.

(** A positional argument as Python passes it, whatever its type. *)
Inductive pyvalue : Type :=
| PyInt (z : Z)
| PyStr (s : string).

(** ** The script *)

Section Script.

Context `{Num : Numerics}.

(** [{f.name: np.load(f.path) for f in os.scandir(feature_dir)
      if check(f.name)}] *)
Definition load_columns (feature_dir : string) (names : list string)
  : M (list (string * ndarray)) :=
  for_collect names (fun name =>
    let f_path := Fs.join feature_dir name in
    emit (NpLoad f_path);;
    bytes ← Os.read_bytes f_path;
    a ← lift (np_load bytes);
    mret (name, a)).

Definition predict (directory feature_set clf : string)
    (random_state n_jobs : Z) : M (option auc_t) :=
  check ← match select_check feature_set with
          | Some check => mret check
          | None => raise (Exception (feature_set +:+ " not recognized"))
          end;
  is_d ← Os.isdir directory;
  assert_ is_d ("missing directory=" +:+ Py.repr directory);;
  let feature_dir := Fs.join directory "features" in
  has_features ← Os.isdir feature_dir;
  if negb has_features then
    print "returning none!";;
    mret None
  else
    let samples_filepath := Fs.join directory "samples.pkl" in
    is_f ← Os.isfile samples_filepath;
    assert_ is_f ("missing samples_filepath=" +:+ Py.repr samples_filepath);;
    entries ← Os.scandir feature_dir;
    columns ← load_columns feature_dir (List.filter check entries);
    X ← lift (DataFrame columns);
    entries ← Os.scandir feature_dir;
    for_ (List.filter check entries) print;;
    emit (ReadPickle samples_filepath);;
    bytes ← Os.read_bytes samples_filepath;
    y ← lift (read_pickle bytes);
    emit (TrainTestSplit random_state);;
    parts ← lift (train_test_split X y random_state);
    pipe ← match make_pipe clf random_state n_jobs with
           | Some pipe => mret pipe
           | None => raise (Exception ("Invalid clf argument: " +:+ clf))
           end;
    emit (Fit pipe);;
    auc ← lift (fit_and_score pipe parts);
    mret (Some auc).

Definition network_directory (network : Z) : string :=
  "/data/s1620444/" +:+ Py.fmt02 network.

Definition properties_directory (network : Z) : string :=
  "/data/s1620444/" +:+ Py.fmt02 network +:+ "/properties".

Definition result_path (network : Z) (feature_set clf : string) : string :=
  Fs.join (properties_directory network)
          (feature_set +:+ "_" +:+ clf +:+ ".float").

(** [str(auc)] for [print(auc)], where [auc] may be [None]. *)
Definition str_result (auc : option auc_t) : string :=
  match auc with
  | Some a => str_auc a
  | None => "None"
  end.

Definition single (network : Z) (clf feature_set : string)
    (random_state n_jobs : Z) : M unit :=
  let directory := network_directory network in
  Os.makedirs directory;;
  let directory_out := properties_directory network in
  Os.makedirs directory_out;;
  let filepath_out := result_path network feature_set clf in
  cached ← Os.isfile filepath_out;
  if (cached : bool) then
    print "this is a file"
  else
    auc ← predict directory feature_set clf random_state n_jobs;
    print (str_result auc);;
    match auc with
    | Some a => Os.write_text filepath_out (str_auc a)
    | None => mret tt
    end.

(** [single(network=i, feature_set=f)]: the other parameters take the
    defaults of [single]'s signature. *)
Definition single_defaults (network : Z) (feature_set : string) : M unit :=
  single network "LogisticRegression" feature_set 42 (-1).

Definition discrete_ids : list Z := [18; 20; 21; 9; 4; 8; 24; 16; 11; 10].

(** The line printed by the [except] branch of [discrete]. *)
Definition diagnostic (i : Z) (f : string) : string :=
  "COULD NOT EXTRACT FEATURES NETWORK ID " +:+ pretty i
  +:+ ", FEATURES " +:+ f.

Definition discrete (feature_set : list string) : M unit :=
  for_ discrete_ids (fun i : Z =>
    for_ feature_set (fun f =>
      try_except (single_defaults i f) (print (diagnostic i f)))).

(** The body of the loop of [single_all_features]. *)
Definition all_features_step (network : Z) (f : string) : M unit :=
  print ("network " +:+ pretty network +:+ ", feature " +:+ f);;
  single_defaults network f.

Definition single_all_features (network : Z) (clf : string)
    (random_state : pyvalue) (n_jobs : Z) : M unit :=
  for_ feature_sets (all_features_step network).

Definition excluded_networks : list Z := [5; 15; 17; 26; 27].

(** Lines 161-165 of [all]: the networks of the batch, before the
    optional shuffle. *)
Definition networks_of (network : option Z) : list Z :=
  match network with
  | None =>
      List.filter (fun network => negb (Py.int_in network excluded_networks))
                  (Py.arange 1 31)
  | Some network => [network]
  end.

Context `{Run : Runtime}.

(** Lines 161-168 of [all]: the networks in the order they are run. *)
Definition scheduled_networks (network : option Z) (do_shuffle : bool)
    (seed : Z) : list Z :=
  let networks := networks_of network in
  if do_shuffle then shuffle seed networks else networks.

(** [single_all_features(network, clf, feature_set)]: the third
    positional argument lands in [random_state]; [n_jobs] takes its
    default. *)
Definition all (network : option Z) (clf : string) (n_jobs : Z)
    (feature_set : string) (do_shuffle : bool) (seed : Z) : M unit :=
  let networks := scheduled_networks network do_shuffle seed in
  if (n_jobs =? -1) || (1 <? n_jobs) then
    ProgressParallel n_jobs (length networks)
      (map (fun network =>
              single_all_features network clf (PyStr feature_set) (-1))
           networks)
  else
    for_ networks (fun network =>
      single_all_features network clf (PyStr feature_set) (-1)).

End Script.

(** ** Vocabulary of the statements *)

Definition is_fit (ev : event) : bool :=
  match ev with Fit _ => true | _ => false end.

Definition is_library_call (ev : event) : bool :=
  match ev with Printed _ => false | _ => true end.

(** The number of model fits in a log: the evaluations that were run. *)
Definition evaluations (l : list event) : nat :=
  length (List.filter is_fit l).

(** The calls into the Dataset Loader and the Evaluator in a log. *)
Definition library_calls (l : list event) : list event :=
  List.filter is_library_call l.

(** No regular file was created, removed or changed between [fs] and
    [fs']; directories may differ. *)
Definition same_files (fs fs' : filesystem) : Prop :=
  forall p content,
    fs' !! p = Some (File content) <-> fs !! p = Some (File content).

(** [fs'] is [fs] with some directories added. *)
Definition grown (fs fs' : filesystem) : Prop :=
  forall p, fs' !! p = fs !! p \/ (fs !! p = None /\ fs' !! p = Some Dir).

(** The file system after the two [os.makedirs] calls of [single]. *)
Definition made_dirs (fs : filesystem) (network : Z) : option filesystem :=
  match Fs.makedirs fs (network_directory network) with
  | Some fs1 => Fs.makedirs fs1 (properties_directory network)
  | None => None
  end.

(** The resolved paths of a network's directories. *)
Definition network_path (network : Z) : path :=
  ["data"; "s1620444"; Py.fmt02 network].

Definition properties_path (network : Z) : path :=
  ["data"; "s1620444"; Py.fmt02 network; "properties"].

(** No regular file sits where [single] makes its directories: each of
    [/data], [/data/s1620444], the network directory and its
    [properties/] is absent or a directory. *)
Definition no_file_on_the_way (fs : filesystem) (network : Z) : Prop :=
  forall p, p `prefix_of` properties_path network ->
            Fs.is_file_node (Fs.node_at fs p) = false.

(** What one unit of [discrete] leaves behind: the world after
    [single], with the diagnostic printed when it raised. *)
Definition unit_run `{Numerics} (w : world) (unit : Z * string) : world :=
  match single_defaults unit.1 unit.2 w with
  | (Return _, w') => w'
  | (Raise _, w') =>
      World (files w') (log w' ++ [Printed (diagnostic unit.1 unit.2)])
  end.

(** The branch of [single] that runs when no result is cached: lines
    146-150. *)
Definition evaluate_and_store `{Numerics} (network : Z)
    (clf feature_set : string) (random_state n_jobs : Z) : M unit :=
  auc ← predict (network_directory network) feature_set clf
                random_state n_jobs;
  print (str_result auc);;
  match auc with
  | Some a => Os.write_text (result_path network feature_set clf) (str_auc a)
  | None => mret tt
  end.

(** [m] leaves the files alone, and whatever its outcome [o] and the
    number [k] of model fits it logs, [Q o k] holds. *)
Definition run_spec {A : Type} (m : M A) (Q : outcome A -> nat -> Prop)
  : Prop :=
  forall w,
    files (m w).2 = files w
    /\ exists t, log (m w).2 = log w ++ t /\ Q (m w).1 (evaluations t).

(** [m] leaves the files alone and fits no model. *)
Definition silent {A : Type} (m : M A) : Prop :=
  run_spec m (fun _ k => k = 0%nat).

(** An evaluation is at most one model fit, and none when [predict]
    returns [None]. *)
Definition at_most_once `{Numerics} (o : outcome (option auc_t)) (k : nat)
  : Prop :=
  (k <= 1)%nat /\ (o = Return None -> k = 0%nat).

(** A character that is neither a separator nor a dot, and the strings
    made of such characters. *)
Definition plain_char (c : ascii) : bool :=
  negb (Ascii.eqb c "/") && negb (Ascii.eqb c ".").

Fixpoint plain (s : string) : bool :=
  match s with
  | EmptyString => true
  | String c rest => plain_char c && plain rest
  end.

(** ** A small instance to run the script on *)

Module Example.

(** Arrays and labels are the bytes they were read from; every fit
    scores 0.75; an empty file does not load. *)
#[local] Instance numerics : Numerics := {|
  ndarray := string;
  frame := list (string * string);
  labels := string;
  split := list (string * string) * string;
  auc_t := string;
  np_load := fun bytes =>
    if String.eqb bytes "" then Raise (LibraryError "np.load")
    else Return bytes;
  DataFrame := fun columns => Return columns;
  read_pickle := fun bytes => Return bytes;
  train_test_split := fun X y _ => Return (X, y);
  fit_and_score := fun _ _ => Return "0.75";
  str_auc := fun a => a
|}.

(** A runtime that reverses instead of shuffling and runs the delayed
    calls one after the other. *)
#[local] Instance runtime : Runtime := {|
  shuffle := fun _ l => rev l;
  shuffle_perm := fun _ l => Permutation_sym (Permutation_rev l);
  ProgressParallel := fun _ _ tasks => for_ tasks (fun task => task)
|}.

Definition data_root : filesystem :=
  <[ ["data"; "s1620444"] := Dir ]> (<[ ["data"] := Dir ]> ∅).

(** Network 1 with two feature files and its labels. *)
Definition network_1 : filesystem :=
  <[ ["data"; "s1620444"; "01"; "samples.pkl"] := File "0101" ]>
  (<[ ["data"; "s1620444"; "01"; "features"; "na_x.npy"] := File "5678" ]>
  (<[ ["data"; "s1620444"; "01"; "features"; "aa.npy"] := File "1234" ]>
  (<[ ["data"; "s1620444"; "01"; "features"] := Dir ]>
  (<[ ["data"; "s1620444"; "01"] := Dir ]> data_root)))).

(** Network 1 once feature set II-A has been evaluated. *)
Definition network_1_cached : filesystem :=
  <[ ["data"; "s1620444"; "01"; "properties";
      "II-A_LogisticRegression.float"] := File "0.75" ]>
  (<[ ["data"; "s1620444"; "01"; "properties"] := Dir ]> network_1).

(** Network 2 exists but has no [features/] directory. *)
Definition network_2_bare : filesystem :=
  <[ ["data"; "s1620444"; "02"] := Dir ]> data_root.

(** Network 1 with feature set I cached and the labels missing. *)
Definition network_1_no_labels : filesystem :=
  <[ ["data"; "s1620444"; "01"; "properties";
      "I_LogisticRegression.float"] := File "0.75" ]>
  (<[ ["data"; "s1620444"; "01"; "properties"] := Dir ]>
  (<[ ["data"; "s1620444"; "01"; "features"; "aa.npy"] := File "1234" ]>
  (<[ ["data"; "s1620444"; "01"; "features"] := Dir ]>
  (<[ ["data"; "s1620444"; "01"] := Dir ]> data_root)))).

End Example.

(** ** Vocabulary of the further properties *)

(** [m], run on the file system [fs], leaves it as it is and appends to
    the log a trace [t] with [Q o t] for its outcome [o]. *)
Definition reads {A : Type} (fs : filesystem) (m : M A)
    (Q : outcome A -> list event -> Prop) : Prop :=
  forall w, files w = fs ->
    files (m w).2 = fs
    /\ exists t, log (m w).2 = log w ++ t /\ Q (m w).1 t.

(** An [np.load] event is the load of an entry of [feature_dir] that
    [check] selects. *)
Definition loads_selected (fs : filesystem) (feature_dir : string)
    (check : string -> bool) (ev : event) : Prop :=
  forall path, ev = NpLoad path ->
    exists name names,
      Fs.scandir fs feature_dir = Some names
      /\ In name names
      /\ check name = true
      /\ path = Fs.join feature_dir name.

(** A fit event is the fit of the estimator [make_pipe] builds. *)
Definition fits_pipe (clf : string) (random_state n_jobs : Z) (ev : event)
  : Prop :=
  forall pipe, ev = Fit pipe -> make_pipe clf random_state n_jobs = Some pipe.

(** What [predict] appends to the log on the file system [fs]. *)
Definition predict_post `{Numerics} (fs : filesystem) (feature_dir : string)
    (check : string -> bool) (clf : string) (random_state n_jobs : Z)
    (o : outcome (option auc_t)) (t : list event) : Prop :=
  Forall (loads_selected fs feature_dir check) t
  /\ Forall (fits_pipe clf random_state n_jobs) t
  /\ (forall a, o = Return (Some a) -> evaluations t = 1%nat).

(** Every regular file of [fs] is in [fs'] with the same content. *)
Definition keeps_files (fs fs' : filesystem) : Prop :=
  forall p content,
    fs !! p = Some (File content) -> fs' !! p = Some (File content).

(** The classifier names [predict] knows. *)
Definition classifiers : list string :=
  ["LogisticRegression"; "RandomForest"; "XGBoost"].

(** The world [w'] continues [w]: its log extends the log of [w] by
    events that satisfy [P], and every regular file of [w] is kept. *)
Definition continues (P : event -> Prop) (w w' : world) : Prop :=
  keeps_files (files w) (files w')
  /\ exists t, log w' = log w ++ t /\ Forall P t.

(** Network 1 with the results of all six feature sets stored. *)
Definition network_1_done : filesystem :=
  <[ ["data"; "s1620444"; "01"; "properties";
      "I_LogisticRegression.float"] := File "0.75" ]>
  (<[ ["data"; "s1620444"; "01"; "properties";
       "II-A_LogisticRegression.float"] := File "0.75" ]>
  (<[ ["data"; "s1620444"; "01"; "properties";
       "II-B_LogisticRegression.float"] := File "0.75" ]>
  (<[ ["data"; "s1620444"; "01"; "properties";
       "III-A_LogisticRegression.float"] := File "0.75" ]>
  (<[ ["data"; "s1620444"; "01"; "properties";
       "III-B_LogisticRegression.float"] := File "0.75" ]>
  (<[ ["data"; "s1620444"; "01"; "properties";
       "I+II-A+III-A_LogisticRegression.float"] := File "0.75" ]>
  (<[ ["data"; "s1620444"; "01"; "properties"] := Dir ]>
     Example.network_1)))))).

(** The columns [predict] builds from the entries [names] of
    [feature_dir] when every one of them loads: the arrays by name, in
    the order of the entries. *)
Fixpoint read_columns `{Numerics} (fs : filesystem) (feature_dir : string)
    (names : list string) : option (list (string * ndarray)) :=
  match names with
  | [] => Some []
  | name :: rest =>
      match Fs.read_bytes fs (Fs.join feature_dir name) with
      | Some bytes =>
          match np_load bytes, read_columns fs feature_dir rest with
          | Return a, Some columns => Some ((name, a) :: columns)
          | _, _ => None
          end
      | None => None
      end
  end.

(** * Properties *)

(** ** The feature selector *)

Lemma select_check_recognized feature_set :
  In feature_set feature_sets <-> is_Some (select_check feature_set).
Proof.
  unfold select_check, feature_sets. split.
  - simpl. intros [<-|[<-|[<-|[<-|[<-|[<-|[]]]]]]]; simpl; eauto.
  - repeat match goal with
    | |- context [String.eqb ?a ?b] =>
        destruct (String.eqb_spec a b) as [->|_]; [simpl; tauto|]
    end.
    intros [check Hcheck]. discriminate.
Qed.

Lemma select_check_unrecognized feature_set :
  ~ In feature_set feature_sets <-> select_check feature_set = None.
Proof.
  rewrite select_check_recognized, <-eq_None_not_Some. tauto.
Qed.

(** C1: the predicate selected for ['I+II-A+III-A'] is the disjunction
    "starts with [na], or is in the static whitelist, or does not start
    with [na]", and it is true of every filename. *)
Theorem union_check_tautology :
  select_check "I+II-A+III-A" = Some check_I_II_A_III_A
  /\ (forall x : string,
        check_I_II_A_III_A x
        = (Py.startswith x "na"
           || Py.str_in x ["aa.npy"; "cn.npy"; "jc.npy"; "pa.npy"]
           || negb (Py.startswith x "na")))
  /\ (forall x : string, check_I_II_A_III_A x = true).
Proof.
  split; [reflexivity|]. split; [reflexivity|].
  intros x. unfold check_I_II_A_III_A.
  destruct (Py.startswith x "na"); simpl; [reflexivity|].
  apply orb_true_r.
Qed.

(** C9: each of the six recognized identifiers selects a predicate, and
    that predicate answers [True] or [False] on every filename: no
    filename makes it raise. *)
Theorem select_check_total (feature_set : string) :
  In feature_set feature_sets ->
  exists check : string -> bool,
    select_check feature_set = Some check
    /\ forall x : string, check x = true \/ check x = false.
Proof.
  intros Hin. apply select_check_recognized in Hin as [check Hcheck].
  exists check. split; [assumption|].
  intros x. destruct (check x); auto.
Qed.

Lemma select_check_total_witness :
  exists check : string -> bool,
    select_check "II-B" = Some check
    /\ forall x : string, check x = true \/ check x = false.
Proof.
  apply (select_check_total "II-B"). simpl. tauto.
Defined.

(** ** The evaluator's parallelism *)

(** C7: a negative [n_jobs] reaches RandomForest and XGBoost as 100 and
    LogisticRegression unchanged; a non-negative [n_jobs] reaches all
    three unchanged. *)
Theorem effective_n_jobs (random_state n_jobs : Z) :
  (n_jobs < 0 ->
     make_pipe "RandomForest" random_state n_jobs
       = Some (RandomForestPipe random_state 100)
     /\ make_pipe "XGBoost" random_state n_jobs
       = Some (XGBClassifier 100 random_state)
     /\ make_pipe "LogisticRegression" random_state n_jobs
       = Some (LogisticRegressionPipe 10000 n_jobs random_state))
  /\ (0 <= n_jobs ->
     make_pipe "RandomForest" random_state n_jobs
       = Some (RandomForestPipe random_state n_jobs)
     /\ make_pipe "XGBoost" random_state n_jobs
       = Some (XGBClassifier n_jobs random_state)
     /\ make_pipe "LogisticRegression" random_state n_jobs
       = Some (LogisticRegressionPipe 10000 n_jobs random_state)).
Proof.
  unfold make_pipe; simpl.
  split; intros Hn.
  - apply Z.ltb_lt in Hn. rewrite Hn. auto.
  - apply Z.ltb_ge in Hn. rewrite Hn. auto.
Qed.

Lemma effective_n_jobs_witness :
  estimator_n_jobs <$> make_pipe "RandomForest" 42 (-1) = Some 100
  /\ estimator_n_jobs <$> make_pipe "XGBoost" 42 (-1) = Some 100
  /\ estimator_n_jobs <$> make_pipe "LogisticRegression" 42 (-1) = Some (-1)
  /\ estimator_n_jobs <$> make_pipe "RandomForest" 42 4 = Some 4.
Proof.
  destruct (effective_n_jobs 42 (-1)) as [Hneg _].
  destruct (effective_n_jobs 42 4) as [_ Hpos].
  destruct Hneg as (-> & -> & ->); [lia|].
  destruct Hpos as (-> & _); [lia|].
  repeat split.
Defined.

(** ** The networks of a batch *)

Lemma networks_of_all (n : Z) :
  In n (networks_of None) <-> 1 <= n <= 30 /\ ~ In n excluded_networks.
Proof.
  unfold networks_of, Py.arange.
  rewrite filter_In, <-list_elem_of_In, elem_of_seqZ.
  rewrite negb_true_iff, <-not_true_iff_false.
  unfold Py.int_in. rewrite existsb_exists.
  split.
  - intros [Hrange Hex]. split; [lia|].
    intros Hin. apply Hex. exists n. split; [assumption|apply Z.eqb_refl].
  - intros [Hrange Hex]. split; [lia|].
    intros (m & Hin & Heq). apply Z.eqb_eq in Heq as ->. auto.
Qed.

(** C4, as the code has it: with no network given, [all] runs the
    integers 1 to 30 that are not in the exclusion list (shuffled or
    not); with a network given, it runs that one network. *)
Theorem scheduled_networks_spec `{Run : Runtime} (do_shuffle : bool)
    (seed : Z) :
  (forall n : Z,
     In n (scheduled_networks None do_shuffle seed)
     <-> 1 <= n <= 30 /\ ~ In n [5; 15; 17; 26; 27])
  /\ (forall k n : Z,
     In n (scheduled_networks (Some k) do_shuffle seed) <-> n = k).
Proof.
  assert (Hperm : forall network n,
    In n (scheduled_networks network do_shuffle seed)
    <-> In n (networks_of network)).
  { intros network n. unfold scheduled_networks. destruct do_shuffle; [|tauto].
    split; apply Permutation_in;
      [apply shuffle_perm | apply Permutation_sym, shuffle_perm]. }
  split.
  - intros n. rewrite Hperm. apply networks_of_all.
  - intros k n. rewrite Hperm. simpl. intuition.
Qed.

(** C4 as stated fails: network 31 is in the stated range and not in the
    exclusion list, but [np.arange(1, 31)] stops at 30. *)
Lemma networks_of_misses_31 :
  ~ (forall n : Z,
       In n (networks_of None)
       <-> 1 <= n <= 31 /\ ~ In n [5; 15; 17; 26; 27]).
Proof.
  intros Hall.
  assert (Hin : In 31 (networks_of None)).
  { apply Hall. split; [lia|]. simpl. lia. }
  apply networks_of_all in Hin. lia.
Qed.

(** ** The file system: growth by directories *)

Section FsFacts.

Implicit Types (fs : filesystem) (cur q : path) (comps : list string).

Lemma grown_refl fs : grown fs fs.
Proof. intros p. by left. Qed.

Lemma grown_trans fs1 fs2 fs3 : grown fs1 fs2 -> grown fs2 fs3 -> grown fs1 fs3.
Proof.
  intros H12 H23 p.
  destruct (H12 p) as [E12|[E1 E2]], (H23 p) as [E23|[E2' E3]];
    try (left; congruence); try (right; split; congruence).
Qed.

Lemma grown_insert fs p : fs !! p = None -> grown fs (<[p := Dir]> fs).
Proof.
  intros Hp p'. destruct (decide (p = p')) as [<-|Hne].
  - right. by rewrite lookup_insert_eq.
  - left. by rewrite lookup_insert_ne.
Qed.

Lemma grown_same_files fs fs' : grown fs fs' -> same_files fs fs'.
Proof.
  intros Hg p content. destruct (Hg p) as [->|[E1 E2]]; [tauto|].
  rewrite E1, E2. split; discriminate.
Qed.

Lemma same_files_refl fs : same_files fs fs.
Proof. by intros p content. Qed.

Lemma grown_node_at fs fs' p :
  grown fs fs' ->
  Fs.node_at fs' p = Fs.node_at fs p
  \/ (Fs.node_at fs p = None /\ Fs.node_at fs' p = Some Dir).
Proof. intros Hg. destruct p; [by left|apply Hg]. Qed.

Lemma grown_dir fs fs' p :
  grown fs fs' ->
  Fs.is_dir_node (Fs.node_at fs p) = true ->
  Fs.is_dir_node (Fs.node_at fs' p) = true.
Proof.
  intros Hg Hd. destruct (grown_node_at fs fs' p Hg) as [->|[E1 E2]];
    [assumption|]. by rewrite E2.
Qed.

Lemma grown_file fs fs' p :
  grown fs fs' ->
  Fs.is_file_node (Fs.node_at fs p) = true ->
  Fs.node_at fs' p = Fs.node_at fs p.
Proof.
  intros Hg Hf. destruct (grown_node_at fs fs' p Hg) as [->|[E1 E2]];
    [reflexivity|]. by rewrite E1 in Hf.
Qed.

(** *** Resolution *)

Lemma walk_app fs cur l1 l2 :
  Fs.walk fs cur (l1 ++ l2)
  = match Fs.walk fs cur l1 with
    | Some q => Fs.walk fs q l2
    | None => None
    end.
Proof.
  revert cur. induction l1 as [|c l1 IH]; intros cur; simpl; [reflexivity|].
  destruct (Fs.is_dir_node (Fs.node_at fs cur)); [apply IH|reflexivity].
Qed.

Lemma walk_start_dir fs cur comps q :
  Fs.walk fs cur comps = Some q ->
  Fs.is_dir_node (Fs.node_at fs q) = true ->
  Fs.is_dir_node (Fs.node_at fs cur) = true.
Proof.
  destruct comps as [|c rest]; simpl.
  - by intros [= ->].
  - by destruct (Fs.is_dir_node (Fs.node_at fs cur)).
Qed.

Lemma walk_grown fs fs' cur comps q :
  grown fs fs' ->
  Fs.walk fs cur comps = Some q -> Fs.walk fs' cur comps = Some q.
Proof.
  intros Hg. revert cur. induction comps as [|c rest IH]; intros cur; simpl;
    [done|].
  destruct (Fs.is_dir_node (Fs.node_at fs cur)) eqn:Hd; [|done].
  rewrite (grown_dir _ _ _ Hg Hd). apply IH.
Qed.

(** Putting a node where there was no directory leaves every
    successful resolution as it was. *)
Lemma walk_insert fs cur comps q p n :
  Fs.is_dir_node (Fs.node_at fs p) = false ->
  Fs.walk fs cur comps = Some q ->
  Fs.walk (<[p := n]> fs) cur comps = Some q.
Proof.
  intros Hp. revert cur. induction comps as [|c rest IH]; intros cur; simpl;
    [done|].
  destruct (Fs.is_dir_node (Fs.node_at fs cur)) eqn:Hd; [|done].
  intros Hw. assert (Hne : p <> cur) by congruence.
  assert (Hsame : Fs.node_at (<[p := n]> fs) cur = Fs.node_at fs cur).
  { destruct cur; [reflexivity|]. simpl. by rewrite lookup_insert_ne. }
  rewrite Hsame, Hd. by apply IH.
Qed.

(** *** [os.makedirs] *)

Lemma mkdirs_grown fs cur comps fs' :
  Fs.mkdirs fs cur comps = Some fs' -> grown fs fs'.
Proof.
  revert fs cur. induction comps as [|c rest IH]; intros fs cur; simpl.
  - destruct (Fs.is_dir_node _); [|done]. intros [= <-]. apply grown_refl.
  - destruct (Fs.is_dir_node _); [|done].
    destruct (Fs.node_at fs (Fs.step cur c)) eqn:Hn; [apply IH|].
    intros Hmk. apply IH in Hmk.
    eapply grown_trans; [|exact Hmk].
    apply grown_insert. by destruct (Fs.step cur c).
Qed.

Lemma mkdirs_walk fs cur comps fs' :
  Fs.mkdirs fs cur comps = Some fs' ->
  exists q, Fs.walk fs' cur comps = Some q
            /\ Fs.is_dir_node (Fs.node_at fs' q) = true.
Proof.
  revert fs cur. induction comps as [|c rest IH]; intros fs cur; simpl.
  - destruct (Fs.is_dir_node _) eqn:Hd; [|done]. intros [= <-]. eauto.
  - destruct (Fs.is_dir_node (Fs.node_at fs cur)) eqn:Hd; [|done].
    intros Hmk.
    assert (Hg : grown fs fs').
    { apply (mkdirs_grown fs cur (c :: rest)). simpl. by rewrite Hd. }
    rewrite (grown_dir _ _ _ Hg Hd).
    destruct (Fs.node_at fs (Fs.step cur c)); eapply IH, Hmk.
Qed.

Lemma mkdirs_noop fs cur comps q :
  Fs.walk fs cur comps = Some q ->
  Fs.is_dir_node (Fs.node_at fs q) = true ->
  Fs.mkdirs fs cur comps = Some fs.
Proof.
  revert cur. induction comps as [|c rest IH]; intros cur; simpl.
  - intros [= ->] ->. reflexivity.
  - destruct (Fs.is_dir_node (Fs.node_at fs cur)); [|done].
    intros Hw Hq. pose proof (walk_start_dir _ _ _ _ Hw Hq) as Hd.
    destruct (Fs.node_at fs (Fs.step cur c)); [by apply IH|done].
Qed.

Lemma makedirs_grown fs s fs' : Fs.makedirs fs s = Some fs' -> grown fs fs'.
Proof.
  unfold Fs.makedirs. destruct (String.eqb s ""); [done|].
  apply mkdirs_grown.
Qed.

Lemma makedirs_isdir fs s fs' :
  Fs.makedirs fs s = Some fs' -> Fs.isdir fs' s = true.
Proof.
  unfold Fs.makedirs, Fs.isdir, Fs.resolve.
  destruct (String.eqb s ""); [done|].
  intros (q & -> & Hq)%mkdirs_walk. exact Hq.
Qed.

Lemma makedirs_noop fs s : Fs.isdir fs s = true -> Fs.makedirs fs s = Some fs.
Proof.
  unfold Fs.makedirs, Fs.isdir, Fs.resolve.
  destruct (String.eqb s ""); [done|].
  destruct (Fs.walk fs [] (Fs.split_slash s)) as [q|] eqn:Hw; [|done].
  by apply mkdirs_noop.
Qed.

Lemma resolve_grown fs fs' s q :
  grown fs fs' -> Fs.resolve fs s = Some q -> Fs.resolve fs' s = Some q.
Proof.
  unfold Fs.resolve. destruct (String.eqb s ""); [done|]. apply walk_grown.
Qed.

Lemma isdir_grown fs fs' s :
  grown fs fs' -> Fs.isdir fs s = true -> Fs.isdir fs' s = true.
Proof.
  unfold Fs.isdir. intros Hg.
  destruct (Fs.resolve fs s) as [q|] eqn:Hr; [|done].
  rewrite (resolve_grown _ _ _ _ Hg Hr). by apply grown_dir.
Qed.

Lemma isfile_grown fs fs' s :
  grown fs fs' -> Fs.isfile fs s = true -> Fs.isfile fs' s = true.
Proof.
  unfold Fs.isfile. intros Hg.
  destruct (Fs.resolve fs s) as [q|] eqn:Hr; [|done].
  rewrite (resolve_grown _ _ _ _ Hg Hr). intros Hf.
  by rewrite (grown_file _ _ _ Hg Hf).
Qed.

Lemma read_bytes_grown fs fs' s :
  grown fs fs' -> Fs.isfile fs s = true ->
  Fs.read_bytes fs' s = Fs.read_bytes fs s.
Proof.
  unfold Fs.isfile, Fs.read_bytes. intros Hg.
  destruct (Fs.resolve fs s) as [q|] eqn:Hr; [|done].
  rewrite (resolve_grown _ _ _ _ Hg Hr). intros Hf.
  by rewrite (grown_file _ _ _ Hg Hf).
Qed.

(** *** Writing a file *)

Lemma write_text_inv fs s content fs' :
  Fs.write_text fs s content = Some fs' ->
  exists q, Fs.resolve fs s = Some q
            /\ Fs.is_dir_node (Fs.node_at fs q) = false
            /\ q <> []
            /\ fs' = <[q := File content]> fs.
Proof.
  unfold Fs.write_text.
  destruct (Fs.resolve fs s) as [q|]; [|done].
  destruct (Fs.node_at fs q) as [[|old]|] eqn:Hn; [done|..];
    intros [= <-]; exists q; rewrite Hn;
    (split; [reflexivity|]); (split; [reflexivity|]);
    (split; [|reflexivity]); intros ->; discriminate.
Qed.

Lemma write_text_isfile fs s content fs' :
  Fs.write_text fs s content = Some fs' -> Fs.isfile fs' s = true.
Proof.
  intros (q & Hr & Hd & Hq & ->)%write_text_inv.
  unfold Fs.isfile, Fs.resolve in *.
  destruct (String.eqb s ""); [done|].
  rewrite (walk_insert _ _ _ _ _ _ Hd Hr).
  destruct q; [done|]. simpl. by rewrite lookup_insert_eq.
Qed.

Lemma write_text_isdir fs s content fs' d :
  Fs.write_text fs s content = Some fs' ->
  Fs.isdir fs d = true -> Fs.isdir fs' d = true.
Proof.
  intros (q & Hr & Hd & Hq & ->)%write_text_inv.
  unfold Fs.isdir, Fs.resolve.
  destruct (String.eqb d ""); [done|].
  destruct (Fs.walk fs [] (Fs.split_slash d)) as [qd|] eqn:Hw; [|done].
  rewrite (walk_insert _ _ _ _ _ _ Hd Hw). intros Hqd.
  assert (q <> qd) by congruence.
  destruct qd; [done|]. simpl in *. by rewrite lookup_insert_ne.
Qed.

End FsFacts.

(** ** Strings and paths *)

Section PathFacts.

Implicit Types (a b s : string) (fs : filesystem).

Lemma append_assoc a b c : (a +:+ b) +:+ c = a +:+ (b +:+ c).
Proof.
  induction a as [|x a IH]; [reflexivity|].
  change (String x ((a +:+ b) +:+ c) = String x (a +:+ (b +:+ c))).
  by f_equal.
Qed.

Lemma append_nonempty a c b : a +:+ String c b <> "".
Proof. by destruct a. Qed.

Lemma split_slash_nonempty s : Fs.split_slash s <> [].
Proof.
  destruct s as [|c s]; simpl; [done|].
  destruct (Ascii.eqb c "/"); [done|]. by destruct (Fs.split_slash s).
Qed.

Lemma split_slash_app a b :
  Fs.split_slash (a +:+ "/" +:+ b) = Fs.split_slash a ++ Fs.split_slash b.
Proof.
  induction a as [|c a IH]; simpl; [reflexivity|].
  rewrite IH. destruct (Ascii.eqb c "/"); [reflexivity|].
  pose proof (split_slash_nonempty a) as Hne.
  by destruct (Fs.split_slash a).
Qed.

Lemma endswith_slash_app a c b :
  Py.endswith (a +:+ String c b) "/" = Py.endswith (String c b) "/".
Proof.
  induction a as [|x a IH]; [reflexivity|].
  change (Py.endswith (String x a +:+ String c b) "/")
    with (String.eqb (String x (a +:+ String c b)) "/"
          || Py.endswith (a +:+ String c b) "/").
  rewrite IH.
  replace (String.eqb (String x (a +:+ String c b)) "/") with false;
    [reflexivity|].
  symmetry. apply String.eqb_neq. intros [= _ Habs].
  by apply append_nonempty in Habs.
Qed.

Lemma join_relative a b :
  a <> "" -> Py.endswith a "/" = false -> Py.startswith b "/" = false ->
  Fs.join a b = a +:+ "/" +:+ b.
Proof.
  intros Ha Hend Hrel. unfold Fs.join. rewrite Hrel, Hend.
  apply String.eqb_neq in Ha. by rewrite Ha.
Qed.

(** A path below [a] resolves only if [a] is a directory. *)
Lemma resolve_below fs a b q :
  a <> "" -> Fs.resolve fs (a +:+ "/" +:+ b) = Some q ->
  Fs.isdir fs a = true.
Proof.
  intros Ha. unfold Fs.isdir, Fs.resolve.
  destruct (String.eqb_spec a "") as [|_]; [done|].
  destruct (String.eqb_spec (a +:+ "/" +:+ b) "") as [|_]; [done|].
  rewrite split_slash_app, walk_app.
  destruct (Fs.walk fs [] (Fs.split_slash a)) as [qa|]; [|done].
  pose proof (split_slash_nonempty b) as Hne.
  destruct (Fs.split_slash b) as [|c rest]; [done|]. simpl.
  by destruct (Fs.is_dir_node (Fs.node_at fs qa)).
Qed.

Lemma isfile_below fs a b :
  a <> "" -> Fs.isfile fs (a +:+ "/" +:+ b) = true -> Fs.isdir fs a = true.
Proof.
  intros Ha. unfold Fs.isfile.
  destruct (Fs.resolve fs (a +:+ "/" +:+ b)) as [q|] eqn:Hr; [|done].
  intros _. by eapply resolve_below.
Qed.

(** *** The paths of [single] *)

Lemma network_directory_nonempty n : network_directory n <> "".
Proof. done. Qed.

Lemma properties_directory_below n :
  properties_directory n = network_directory n +:+ "/" +:+ "properties".
Proof.
  reflexivity.
Qed.

Lemma properties_directory_nonempty n : properties_directory n <> "".
Proof. done. Qed.

Lemma properties_directory_end n :
  Py.endswith (properties_directory n) "/" = false.
Proof.
  rewrite properties_directory_below.
  change ("/" +:+ "properties") with (String "/" "properties").
  by rewrite endswith_slash_app.
Qed.

Lemma startswith_slash_app a b :
  Py.startswith a "/" = false -> Py.startswith (a +:+ "_" +:+ b) "/" = false.
Proof.
  unfold Py.startswith.
  destruct a as [|x a]; [reflexivity|]. intros Hx.
  change (String x a +:+ "_" +:+ b) with (String x (a +:+ "_" +:+ b)).
  cbn -[ascii_dec] in *.
  destruct (ascii_dec "/" x); [by destruct a|reflexivity].
Qed.

Lemma result_path_relative n feature_set clf :
  Py.startswith feature_set "/" = false ->
  result_path n feature_set clf
  = properties_directory n +:+ "/" +:+ feature_set +:+ "_" +:+ clf +:+ ".float".
Proof.
  intros Hrel. unfold result_path.
  apply join_relative;
    [apply properties_directory_nonempty | apply properties_directory_end|].
  by apply startswith_slash_app.
Qed.

Lemma isfile_result_isdir fs n feature_set clf :
  Py.startswith feature_set "/" = false ->
  Fs.isfile fs (result_path n feature_set clf) = true ->
  Fs.isdir fs (network_directory n) = true
  /\ Fs.isdir fs (properties_directory n) = true.
Proof.
  intros Hrel. rewrite result_path_relative by done. intros Hf.
  apply isfile_below in Hf as Hprops; [|apply properties_directory_nonempty].
  split; [|assumption].
  unfold Fs.isdir in Hprops.
  destruct (Fs.resolve fs (properties_directory n)) as [q|] eqn:Hr; [|done].
  rewrite properties_directory_below in Hr.
  eapply resolve_below; [apply network_directory_nonempty|exact Hr].
Qed.

(** *** Plain strings: the decimal numbers *)

Lemma plain_pretty_N_char x : plain_char (pretty_N_char x) = true.
Proof. unfold pretty_N_char. by repeat case_match. Qed.

Lemma plain_pretty_N_go x s :
  plain s = true -> plain (pretty_N_go x s) = true.
Proof.
  revert s. induction (N.lt_wf_0 x) as [x _ IH]; intros s Hs.
  destruct (decide (x = 0%N)) as [->|Hx]; [by rewrite pretty_N_go_0|].
  rewrite pretty_N_go_step by lia.
  apply IH; [apply N.div_lt; lia|].
  simpl. by rewrite plain_pretty_N_char.
Qed.

Lemma pretty_N_go_nonempty x s : s <> "" -> pretty_N_go x s <> "".
Proof.
  revert s. induction (N.lt_wf_0 x) as [x _ IH]; intros s Hs.
  destruct (decide (x = 0%N)) as [->|Hx]; [by rewrite pretty_N_go_0|].
  rewrite pretty_N_go_step by lia.
  apply IH; [apply N.div_lt; lia|done].
Qed.

Lemma plain_pretty_positive (p : positive) :
  plain (pretty p) = true /\ pretty p <> "".
Proof.
  unfold pretty, pretty_positive, pretty, pretty_N.
  destruct (decide (N.pos p = 0%N)); [done|]. split.
  - by apply plain_pretty_N_go.
  - rewrite pretty_N_go_step by lia. by apply pretty_N_go_nonempty.
Qed.

Lemma plain_pretty_Z (n : Z) : plain (pretty n) = true /\ pretty n <> "".
Proof.
  destruct n as [|p|p]; unfold pretty, pretty_Z; [done|..].
  - apply plain_pretty_positive.
  - split; [|done]. simpl. apply plain_pretty_positive.
Qed.

Lemma plain_fmt02 n : plain (Py.fmt02 n) = true /\ Py.fmt02 n <> "".
Proof.
  unfold Py.fmt02. destruct (_ && _); [|apply plain_pretty_Z].
  split; [|done]. simpl. apply plain_pretty_Z.
Qed.

Lemma split_slash_plain s : plain s = true -> Fs.split_slash s = [s].
Proof.
  induction s as [|c s IH]; simpl; [done|].
  unfold plain_char. intros [[Hc _]%andb_prop Hs]%andb_prop.
  apply negb_true_iff in Hc. rewrite Hc. by rewrite IH.
Qed.

Lemma step_plain cur c :
  plain c = true -> c <> "" -> Fs.step cur c = cur ++ [c].
Proof.
  intros Hc Hne. unfold Fs.step.
  destruct c as [|x c]; [done|]. simpl in Hc.
  apply andb_prop in Hc as [Hx Hc]. unfold plain_char in Hx.
  apply andb_prop in Hx as [_ Hdot]. apply negb_true_iff in Hdot.
  replace (String.eqb (String x c) "") with false by done.
  replace (String.eqb (String x c) ".") with false
    by (simpl; by rewrite Hdot).
  replace (String.eqb (String x c) "..") with false
    by (simpl; by rewrite Hdot).
  reflexivity.
Qed.

Lemma split_network_directory n :
  Fs.split_slash (network_directory n)
  = [""; "data"; "s1620444"; Py.fmt02 n].
Proof.
  transitivity (Fs.split_slash ("/data/s1620444" +:+ "/" +:+ Py.fmt02 n));
    [reflexivity|].
  rewrite split_slash_app.
  rewrite (split_slash_plain (Py.fmt02 n)) by apply plain_fmt02.
  reflexivity.
Qed.

Lemma split_properties_directory n :
  Fs.split_slash (properties_directory n)
  = [""; "data"; "s1620444"; Py.fmt02 n; "properties"].
Proof.
  rewrite properties_directory_below, split_slash_app.
  by rewrite split_network_directory.
Qed.

End PathFacts.

(** ** Runs of the monad *)

Section RunFacts.

Context {A B : Type}.

Lemma bind_run (m : M A) (f : A -> M B) w :
  (m ≫= f) w
  = match m w with
    | (Return a, w') => f a w'
    | (Raise e, w') => (Raise e, w')
    end.
Proof. reflexivity. Qed.

Lemma evaluations_app t1 t2 :
  evaluations (t1 ++ t2) = (evaluations t1 + evaluations t2)%nat.
Proof. unfold evaluations. by rewrite List.filter_app, length_app. Qed.

Lemma run_spec_weaken (m : M A) (Q Q' : outcome A -> nat -> Prop) :
  (forall o k, Q o k -> Q' o k) -> run_spec m Q -> run_spec m Q'.
Proof.
  intros HQ Hm w. destruct (Hm w) as (Hf & t & Ht & Hq). eauto.
Qed.

Lemma run_spec_pure (m : M A) (Q : outcome A -> nat -> Prop) :
  (forall w, (m w).2 = w) -> (forall o, Q o 0%nat) -> run_spec m Q.
Proof.
  intros Hw HQ w. rewrite Hw. split; [reflexivity|].
  exists []. rewrite app_nil_r. auto.
Qed.

Lemma silent_bind (m : M A) (f : A -> M B) (Q : outcome B -> nat -> Prop) :
  silent m ->
  (forall a, run_spec (f a) Q) ->
  (forall e, Q (Raise e) 0%nat) ->
  run_spec (m ≫= f) Q.
Proof.
  intros Hm Hf HQ w. rewrite bind_run.
  destruct (Hm w) as (Hfiles & t & Hlog & Hk).
  destruct (m w) as [[a|e] w1]; simpl in *.
  - destruct (Hf a w1) as (Hfiles2 & t2 & Hlog2 & HQ2).
    split; [congruence|]. exists (t ++ t2).
    rewrite Hlog2, Hlog, app_assoc, evaluations_app, Hk. auto.
  - split; [assumption|]. exists t. rewrite Hk. auto.
Qed.

End RunFacts.

Section SilentFacts.

Lemma silent_ret {A} (a : A) : silent (mret a).
Proof. by apply run_spec_pure. Qed.

Lemma silent_raise {A} e : silent (raise (A := A) e).
Proof. by apply run_spec_pure. Qed.

Lemma silent_lift {A} (r : outcome A) : silent (lift r).
Proof. by apply run_spec_pure. Qed.

Lemma silent_assert cond msg : silent (assert_ cond msg).
Proof. destruct cond; [apply silent_ret|apply silent_raise]. Qed.

Lemma silent_isdir s : silent (Os.isdir s).
Proof. by apply run_spec_pure. Qed.

Lemma silent_isfile s : silent (Os.isfile s).
Proof. by apply run_spec_pure. Qed.

Lemma silent_scandir s : silent (Os.scandir s).
Proof.
  apply run_spec_pure; [|done]. intros w. unfold Os.scandir.
  by destruct (Fs.scandir (files w) s).
Qed.

Lemma silent_read_bytes s : silent (Os.read_bytes s).
Proof.
  apply run_spec_pure; [|done]. intros w. unfold Os.read_bytes.
  by destruct (Fs.read_bytes (files w) s).
Qed.

Lemma silent_emit ev : is_fit ev = false -> silent (emit ev).
Proof.
  intros Hev w. split; [reflexivity|]. exists [ev]. split; [reflexivity|].
  unfold evaluations. simpl. by rewrite Hev.
Qed.

Lemma silent_print line : silent (print line).
Proof. by apply silent_emit. Qed.

Lemma silent_then {A B} (m : M A) (f : A -> M B) :
  silent m -> (forall a, silent (f a)) -> silent (m ≫= f).
Proof. intros Hm Hf. by apply silent_bind. Qed.

Lemma silent_for {A} (l : list A) (body : A -> M unit) :
  (forall x, silent (body x)) -> silent (for_ l body).
Proof.
  intros Hbody. induction l as [|x l IH]; simpl; [apply silent_ret|].
  apply silent_then; auto.
Qed.

Lemma silent_for_collect {A B} (l : list A) (f : A -> M B) :
  (forall x, silent (f x)) -> silent (for_collect l f).
Proof.
  intros Hf. induction l as [|x l IH]; simpl; [apply silent_ret|].
  apply silent_then; [auto|]. intros y.
  apply silent_then; [auto|]. intros ys. apply silent_ret.
Qed.

End SilentFacts.

Create HintDb silent.

#[local] Hint Resolve silent_ret silent_raise silent_lift silent_assert
  silent_isdir silent_isfile silent_scandir silent_read_bytes silent_print
  silent_for silent_for_collect : silent.

Ltac silent_steps :=
  repeat first
    [ progress intros
    | apply silent_then
    | solve [auto with silent]
    | apply silent_emit; reflexivity ].

Section ScriptFacts.

Context `{Num : Numerics}.

Lemma silent_load_columns feature_dir names :
  silent (load_columns feature_dir names).
Proof. unfold load_columns. apply silent_for_collect. silent_steps. Qed.

Lemma predict_spec directory feature_set clf random_state n_jobs :
  run_spec (predict directory feature_set clf random_state n_jobs)
           at_most_once.
Proof.
  assert (Hraise : forall e, at_most_once (Raise e) 0).
  { intros e. split; [lia|done]. }
  unfold predict.
  apply silent_bind; [destruct (select_check _); silent_steps| |done].
  intros check.
  apply silent_bind; [silent_steps| |done]. intros is_d.
  apply silent_bind; [silent_steps| |done]. intros _.
  apply silent_bind; [silent_steps| |done]. intros has_features.
  destruct (negb has_features).
  { eapply run_spec_weaken; [|apply silent_then; silent_steps].
    intros o k ->. split; [lia|done]. }
  apply silent_bind; [silent_steps| |done]. intros is_f.
  apply silent_bind; [silent_steps| |done]. intros _.
  apply silent_bind; [silent_steps| |done]. intros entries.
  apply silent_bind; [apply silent_load_columns| |done]. intros columns.
  apply silent_bind; [silent_steps| |done]. intros X.
  apply silent_bind; [silent_steps| |done]. intros entries'.
  apply silent_bind; [silent_steps| |done]. intros _.
  apply silent_bind; [silent_steps| |done]. intros _.
  apply silent_bind; [silent_steps| |done]. intros bytes.
  apply silent_bind; [silent_steps| |done]. intros y.
  apply silent_bind; [silent_steps| |done]. intros _.
  apply silent_bind; [silent_steps| |done]. intros parts.
  apply silent_bind; [destruct (make_pipe _ _ _); silent_steps| |done].
  intros pipe w. rewrite bind_run. simpl.
  split; [by destruct (fit_and_score pipe parts)|].
  exists [Fit pipe]. split; [by destruct (fit_and_score pipe parts)|].
  destruct (fit_and_score pipe parts); split; simpl; done || lia.
Qed.

End ScriptFacts.

(** ** [single]: directories, cache check, evaluation *)

Section SingleFacts.

Context `{Num : Numerics}.
Variables (network : Z) (clf feature_set : string) (random_state n_jobs : Z).

Let run : M unit := single network clf feature_set random_state n_jobs.
Let store : M unit :=
  evaluate_and_store network clf feature_set random_state n_jobs.
Let artifact : string := result_path network feature_set clf.

Lemma made_dirs_inv fs fs_b :
  made_dirs fs network = Some fs_b ->
  grown fs fs_b
  /\ Fs.isdir fs_b (network_directory network) = true
  /\ Fs.isdir fs_b (properties_directory network) = true.
Proof.
  unfold made_dirs.
  destruct (Fs.makedirs fs (network_directory network)) as [fs1|] eqn:H1;
    [|done].
  intros H2.
  pose proof (makedirs_grown _ _ _ H1) as Hg1.
  pose proof (makedirs_grown _ _ _ H2) as Hg2.
  split; [by eapply grown_trans|]. split.
  - eapply isdir_grown; [exact Hg2|]. by eapply makedirs_isdir.
  - by eapply makedirs_isdir.
Qed.

Lemma made_dirs_noop fs :
  Fs.isdir fs (network_directory network) = true -> Fs.isdir fs (properties_directory network) = true ->
  made_dirs fs network = Some fs.
Proof.
  intros Hd Ho. unfold made_dirs.
  rewrite (makedirs_noop _ _ Hd). by apply makedirs_noop.
Qed.

Lemma single_no_dirs w :
  made_dirs (files w) network = None ->
  exists p fs1,
    run w = (Raise (OSError p), World fs1 (log w)) /\ grown (files w) fs1.
Proof.
  unfold made_dirs, run, single. rewrite bind_run. unfold Os.makedirs at 1.
  destruct (Fs.makedirs (files w) (network_directory network))
    as [fs1|] eqn:H1.
  - intros H2. rewrite bind_run. unfold Os.makedirs. simpl. rewrite H2.
    exists (properties_directory network), fs1.
    split; [reflexivity|]. by eapply makedirs_grown.
  - intros _. exists (network_directory network), (files w).
    split; [by destruct w|apply grown_refl].
Qed.

Lemma single_cached w fs_b :
  made_dirs (files w) network = Some fs_b ->
  Fs.isfile fs_b artifact = true ->
  run w = (Return tt, World fs_b (log w ++ [Printed "this is a file"])).
Proof.
  unfold made_dirs, run, single. rewrite bind_run. unfold Os.makedirs at 1.
  destruct (Fs.makedirs (files w) (network_directory network))
    as [fs1|] eqn:H1; [|done].
  intros H2 Hc. rewrite bind_run. unfold Os.makedirs. simpl. rewrite H2.
  rewrite bind_run. unfold Os.isfile. simpl.
  fold artifact. by rewrite Hc.
Qed.

Lemma single_fresh w fs_b :
  made_dirs (files w) network = Some fs_b ->
  Fs.isfile fs_b artifact = false ->
  run w = store (World fs_b (log w)).
Proof.
  unfold made_dirs, run, single. rewrite bind_run. unfold Os.makedirs at 1.
  destruct (Fs.makedirs (files w) (network_directory network))
    as [fs1|] eqn:H1; [|done].
  intros H2 Hc. rewrite bind_run. unfold Os.makedirs. simpl. rewrite H2.
  rewrite bind_run. unfold Os.isfile. simpl.
  fold artifact. by rewrite Hc.
Qed.

Lemma evaluations_printed line : evaluations [Printed line] = 0%nat.
Proof. reflexivity. Qed.

(** What the evaluation branch does to the world: it logs at most one
    model fit, and either leaves the files alone (and then fitted no
    model if it returned), or wrote the result file. *)
Lemma evaluate_and_store_spec w :
  exists t,
    log (store w).2 = log w ++ t
    /\ (evaluations t <= 1)%nat
    /\ ((files (store w).2 = files w
         /\ ((store w).1 = Return tt -> evaluations t = 0%nat))
        \/ (exists content,
              Fs.write_text (files w) artifact content
              = Some (files (store w).2))).
Proof.
  unfold store, evaluate_and_store. rewrite bind_run.
  destruct (predict_spec (network_directory network) feature_set clf
              random_state n_jobs w) as (Hfiles & t & Hlog & Hle & Hnone).
  destruct (predict _ _ _ _ _ w) as [[[a|]|e] w1]; simpl in *.
  - rewrite bind_run. simpl. unfold Os.write_text. simpl.
    destruct (Fs.write_text (files w1) _ _) as [fs_c|] eqn:Hwr; simpl.
    + exists (t ++ [Printed (str_auc a)]).
      rewrite Hlog, <-app_assoc, evaluations_app, evaluations_printed.
      split; [reflexivity|]. split; [lia|].
      right. exists (str_auc a). by rewrite <-Hfiles.
    + exists (t ++ [Printed (str_auc a)]).
      rewrite Hlog, <-app_assoc, evaluations_app, evaluations_printed.
      split; [reflexivity|]. split; [lia|].
      left. split; [assumption|discriminate].
  - exists (t ++ [Printed "None"]).
    rewrite Hlog, <-app_assoc, evaluations_app, evaluations_printed.
    split; [reflexivity|]. rewrite Hnone by reflexivity.
    split; [lia|]. left. split; [assumption|reflexivity].
  - exists t. split; [assumption|]. split; [assumption|].
    left. split; [assumption|discriminate].
Qed.

(** One call of [single] logs at most one model fit. *)
Lemma single_at_most_once w :
  exists t, log (run w).2 = log w ++ t /\ (evaluations t <= 1)%nat.
Proof.
  destruct (made_dirs (files w) network) as [fs_b|] eqn:Hmk.
  - destruct (Fs.isfile fs_b artifact) eqn:Hc.
    + rewrite (single_cached w fs_b Hmk Hc). simpl.
      exists [Printed "this is a file"]. split; [reflexivity|].
      rewrite evaluations_printed. lia.
    + rewrite (single_fresh w fs_b Hmk Hc).
      destruct (evaluate_and_store_spec (World fs_b (log w)))
        as (t & Hlog & Hle & _). eauto.
  - destruct (single_no_dirs w Hmk) as (p & fs1 & -> & _). simpl.
    exists []. rewrite app_nil_r. split; [reflexivity|].
    unfold evaluations. simpl. lia.
Qed.

(** The files after a call of [single]: the two directories are made,
    and at most the result file is written. *)
Lemma single_files w fs_b :
  made_dirs (files w) network = Some fs_b ->
  files (run w).2 = fs_b
  \/ (exists content,
        Fs.write_text fs_b artifact content = Some (files (run w).2)).
Proof.
  intros Hmk. destruct (Fs.isfile fs_b artifact) eqn:Hc.
  - rewrite (single_cached w fs_b Hmk Hc). by left.
  - rewrite (single_fresh w fs_b Hmk Hc).
    destruct (evaluate_and_store_spec (World fs_b (log w)))
      as (t & _ & _ & [[Hf _]|Hwr]); [by left|by right].
Qed.

End SingleFacts.

(** ** The early exits of [predict] *)

Section PredictFacts.

Context `{Num : Numerics}.

Lemma predict_unrecognized directory feature_set clf random_state n_jobs w :
  select_check feature_set = None ->
  predict directory feature_set clf random_state n_jobs w
  = (Raise (Exception (feature_set +:+ " not recognized")), w).
Proof. intros Hsel. unfold predict. by rewrite Hsel. Qed.

Lemma predict_no_features directory feature_set clf random_state n_jobs w :
  is_Some (select_check feature_set) ->
  Fs.isdir (files w) directory = true ->
  Fs.isdir (files w) (Fs.join directory "features") = false ->
  predict directory feature_set clf random_state n_jobs w
  = (Return None, World (files w) (log w ++ [Printed "returning none!"])).
Proof.
  intros [check Hsel] Hd Hf. unfold predict. rewrite Hsel.
  rewrite bind_run. simpl. rewrite bind_run. unfold Os.isdir at 1. simpl.
  rewrite Hd. rewrite bind_run. simpl. rewrite bind_run.
  unfold Os.isdir. simpl. by rewrite Hf.
Qed.

Lemma library_calls_app t1 t2 :
  library_calls (t1 ++ t2) = library_calls t1 ++ library_calls t2.
Proof. apply List.filter_app. Qed.

Lemma library_calls_printed t line :
  library_calls (t ++ [Printed line]) = library_calls t.
Proof. rewrite library_calls_app. simpl. apply app_nil_r. Qed.

End PredictFacts.

(** ** The result cache *)

(** C2: when the result file exists, [single] calls neither the loader
    nor the evaluator and changes no file, the result file included; it
    returns right after the cache check when the file lies under
    [properties/].  Two calls in a row with the same arguments, the
    first of which returns, fit at most one model between them. *)
Theorem single_idempotent `{Num : Numerics} (network : Z)
    (clf feature_set : string) (random_state n_jobs : Z) (w : world) :
  let run := single network clf feature_set random_state n_jobs in
  let artifact := result_path network feature_set clf in
  (Fs.isfile (files w) artifact = true ->
     library_calls (log (run w).2) = library_calls (log w)
     /\ same_files (files w) (files (run w).2)
     /\ Fs.read_bytes (files (run w).2) artifact
        = Fs.read_bytes (files w) artifact
     /\ (Py.startswith feature_set "/" = false ->
         run w = (Return tt,
                  World (files w) (log w ++ [Printed "this is a file"]))))
  /\ (forall w1, run w = (Return tt, w1) ->
        exists t1 t2,
          log w1 = log w ++ t1
          /\ log (run w1).2 = log w1 ++ t2
          /\ (evaluations t1 + evaluations t2 <= 1)%nat).
Proof.
  intros run artifact. split.
  - intros Hc.
    destruct (made_dirs (files w) network) as [fs_b|] eqn:Hmk.
    + destruct (made_dirs_inv network _ _ Hmk) as (Hg & _ & _).
      pose proof (isfile_grown _ _ _ Hg Hc) as Hc'.
      unfold run. rewrite (single_cached _ _ _ _ _ w fs_b Hmk Hc'). simpl.
      split; [apply library_calls_printed|].
      split; [by apply grown_same_files|].
      split; [by apply read_bytes_grown|].
      intros Hrel.
      destruct (isfile_result_isdir _ _ _ _ Hrel Hc) as [Hd Ho].
      rewrite (made_dirs_noop network _ Hd Ho) in Hmk. congruence.
    + destruct (single_no_dirs network clf feature_set random_state n_jobs
                  w Hmk) as (p & fs1 & Hrun & Hg).
      unfold run. rewrite Hrun. simpl.
      split; [reflexivity|].
      split; [by apply grown_same_files|].
      split; [by apply read_bytes_grown|].
      intros Hrel.
      destruct (isfile_result_isdir _ _ _ _ Hrel Hc) as [Hd Ho].
      rewrite (made_dirs_noop network _ Hd Ho) in Hmk. discriminate.
  - intros w1 Hrun.
    destruct (made_dirs (files w) network) as [fs_b|] eqn:Hmk.
    2:{ destruct (single_no_dirs network clf feature_set random_state n_jobs
                    w Hmk) as (p & fs1 & Hrun' & _).
        unfold run in Hrun. congruence. }
    destruct (made_dirs_inv network _ _ Hmk) as (Hg & Hd & Ho).
    assert (Hagain : forall fs_c l,
      Fs.isdir fs_c (network_directory network) = true ->
      Fs.isdir fs_c (properties_directory network) = true ->
      Fs.isfile fs_c artifact = true ->
      run (World fs_c l)
      = (Return tt, World fs_c (l ++ [Printed "this is a file"]))).
    { intros fs_c l Hd' Ho' Hc'. unfold run.
      apply single_cached; [by apply made_dirs_noop|assumption]. }
    destruct (Fs.isfile fs_b artifact) eqn:Hc.
    + unfold run in Hrun.
      rewrite (single_cached _ _ _ _ _ w fs_b Hmk Hc) in Hrun.
      injection Hrun as <-.
      rewrite (Hagain fs_b _ Hd Ho Hc). simpl.
      exists [Printed "this is a file"], [Printed "this is a file"].
      repeat split. rewrite evaluations_printed. lia.
    + unfold run in Hrun.
      rewrite (single_fresh _ _ _ _ _ w fs_b Hmk Hc) in Hrun.
      destruct (evaluate_and_store_spec network clf feature_set random_state
                  n_jobs (World fs_b (log w))) as (t1 & Hlog & Hle & Hfiles).
      rewrite Hrun in Hlog, Hfiles. simpl in Hlog, Hfiles.
      exists t1. destruct Hfiles as [[Hsame Hzero]|[content Hwr]].
      * destruct (single_at_most_once network clf feature_set random_state
                    n_jobs w1) as (t2 & Hlog2 & Hle2).
        exists t2. split; [assumption|]. split; [assumption|].
        rewrite Hzero by reflexivity. lia.
      * pose proof (write_text_isfile _ _ _ _ Hwr) as Hc1.
        pose proof (write_text_isdir _ _ _ _ _ Hwr Hd) as Hd1.
        pose proof (write_text_isdir _ _ _ _ _ Hwr Ho) as Ho1.
        destruct w1 as [fs1 l1]. simpl in *.
        rewrite (Hagain fs1 l1 Hd1 Ho1 Hc1). simpl.
        exists [Printed "this is a file"].
        split; [assumption|]. split; [reflexivity|].
        rewrite evaluations_printed. lia.
Qed.

Lemma single_idempotent_witness :
  let run := single (Num := Example.numerics) 1 "LogisticRegression" "II-A"
                    42 (-1) in
  run (World Example.network_1_cached [])
  = (Return tt, World Example.network_1_cached [Printed "this is a file"])
  /\ exists t1 t2,
       log (run (World Example.network_1 [])).2 = [] ++ t1
       /\ log (run (run (World Example.network_1 [])).2).2
          = log (run (World Example.network_1 [])).2 ++ t2
       /\ (evaluations t1 + evaluations t2 <= 1)%nat.
Proof.
  intros run. split.
  - destruct (single_idempotent (Num := Example.numerics) 1
                "LogisticRegression" "II-A" 42 (-1)
                (World Example.network_1_cached [])) as [Hcached _].
    apply Hcached; reflexivity.
  - destruct (single_idempotent (Num := Example.numerics) 1
                "LogisticRegression" "II-A" 42 (-1)
                (World Example.network_1 [])) as [_ Htwice].
    apply Htwice. reflexivity.
Defined.

(** ** Missing features and unknown feature sets *)

(** C5: with a recognized feature set, [predict] on a directory that has
    no [features/] subdirectory returns [None] and raises nothing; the
    calling [single] then returns without writing any file, and the next
    call of [single] reaches [predict] again. *)
Theorem missing_features_not_persisted `{Num : Numerics}
    (feature_set : string) :
  In feature_set feature_sets ->
  (forall (directory clf : string) (random_state n_jobs : Z) (w : world),
     Fs.isdir (files w) directory = true ->
     Fs.isdir (files w) (Fs.join directory "features") = false ->
     predict directory feature_set clf random_state n_jobs w
     = (Return None, World (files w) (log w ++ [Printed "returning none!"])))
  /\ (forall (network : Z) (clf : string) (random_state n_jobs : Z)
            (w : world) (fs_b : filesystem),
     made_dirs (files w) network = Some fs_b ->
     Fs.isdir fs_b (Fs.join (network_directory network) "features") = false ->
     Fs.isfile fs_b (result_path network feature_set clf) = false ->
     let run := single network clf feature_set random_state n_jobs in
     let nothing := [Printed "returning none!"; Printed "None"] in
     run w = (Return tt, World fs_b (log w ++ nothing))
     /\ same_files (files w) fs_b
     /\ run (World fs_b (log w ++ nothing))
        = (Return tt, World fs_b ((log w ++ nothing) ++ nothing))).
Proof.
  intros Hin%select_check_recognized. split.
  - intros directory clf random_state n_jobs w Hd Hf.
    by apply predict_no_features.
  - intros network clf random_state n_jobs w fs_b Hmk Hf Hc run nothing.
    destruct (made_dirs_inv network _ _ Hmk) as (Hg & Hd & Ho).
    assert (Hstore : forall l,
      run (World fs_b l) = (Return tt, World fs_b (l ++ nothing))
      /\ evaluate_and_store network clf feature_set random_state n_jobs
           (World fs_b l) = (Return tt, World fs_b (l ++ nothing))).
    { intros l.
      assert (Hev : evaluate_and_store network clf feature_set random_state
                n_jobs (World fs_b l) = (Return tt, World fs_b (l ++ nothing))).
      { unfold evaluate_and_store. rewrite bind_run.
        rewrite predict_no_features by done. simpl.
        rewrite bind_run. simpl. by rewrite <-app_assoc. }
      split; [|exact Hev]. unfold run.
      rewrite (single_fresh _ _ _ _ _ (World fs_b l) fs_b);
        [exact Hev|by apply made_dirs_noop|assumption]. }
    split; [|split].
    + unfold run. rewrite (single_fresh _ _ _ _ _ w fs_b Hmk Hc).
      apply Hstore.
    + by apply grown_same_files.
    + apply Hstore.
Qed.

Lemma missing_features_not_persisted_witness :
  let run := single (Num := Example.numerics) 2 "LogisticRegression" "II-A"
                    42 (-1) in
  let fs_b := <[ ["data"; "s1620444"; "02"; "properties"] := Dir ]>
                Example.network_2_bare in
  let nothing := [Printed "returning none!"; Printed "None"] in
  run (World Example.network_2_bare []) = (Return tt, World fs_b nothing)
  /\ same_files Example.network_2_bare fs_b
  /\ run (World fs_b nothing) = (Return tt, World fs_b (nothing ++ nothing)).
Proof.
  intros run fs_b nothing.
  assert (Hin : In "II-A" feature_sets) by (simpl; tauto).
  destruct (missing_features_not_persisted (Num := Example.numerics)
              "II-A" Hin) as [_ Hsingle].
  apply (Hsingle 2 "LogisticRegression" 42 (-1)
           (World Example.network_2_bare []) fs_b);
    reflexivity.
Defined.

(** C6: an identifier outside the six recognized ones makes [predict]
    raise its "not recognized" exception at once, with nothing loaded,
    fitted or printed; [single] with such an identifier creates, changes
    and removes no file, and calls neither loader nor evaluator. *)
Theorem unrecognized_feature_set `{Num : Numerics} (feature_set : string) :
  ~ In feature_set feature_sets ->
  (forall (directory clf : string) (random_state n_jobs : Z) (w : world),
     predict directory feature_set clf random_state n_jobs w
     = (Raise (Exception (feature_set +:+ " not recognized")), w))
  /\ (forall (network : Z) (clf : string) (random_state n_jobs : Z)
            (w : world),
     let run := single network clf feature_set random_state n_jobs in
     same_files (files w) (files (run w).2)
     /\ library_calls (log (run w).2) = library_calls (log w)
     /\ (forall fs_b,
           made_dirs (files w) network = Some fs_b ->
           Fs.isfile fs_b (result_path network feature_set clf) = false ->
           run w = (Raise (Exception (feature_set +:+ " not recognized")),
                    World fs_b (log w)))).
Proof.
  intros Hnot%select_check_unrecognized. split.
  - intros. by apply predict_unrecognized.
  - intros network clf random_state n_jobs w run.
    assert (Hfresh : forall fs_b,
      made_dirs (files w) network = Some fs_b ->
      Fs.isfile fs_b (result_path network feature_set clf) = false ->
      run w = (Raise (Exception (feature_set +:+ " not recognized")),
               World fs_b (log w))).
    { intros fs_b Hmk Hc. unfold run.
      rewrite (single_fresh _ _ _ _ _ w fs_b Hmk Hc).
      unfold evaluate_and_store. rewrite bind_run.
      by rewrite predict_unrecognized. }
    destruct (made_dirs (files w) network) as [fs_b|] eqn:Hmk.
    + destruct (made_dirs_inv network _ _ Hmk) as (Hg & _ & _).
      destruct (Fs.isfile fs_b (result_path network feature_set clf)) eqn:Hc.
      * unfold run. rewrite (single_cached _ _ _ _ _ w fs_b Hmk Hc). simpl.
        split; [by apply grown_same_files|].
        split; [apply library_calls_printed|].
        intros ? [= <-] Hc'. congruence.
      * rewrite (Hfresh fs_b eq_refl Hc). simpl.
        split; [by apply grown_same_files|].
        split; [reflexivity|]. intros ? [= <-] _. reflexivity.
    + destruct (single_no_dirs network clf feature_set random_state n_jobs
                  w Hmk) as (p & fs1 & Hrun & Hg).
      unfold run. rewrite Hrun. simpl.
      split; [by apply grown_same_files|]. split; [reflexivity|]. discriminate.
Qed.

Lemma unrecognized_feature_set_witness :
  let run := single (Num := Example.numerics) 1 "LogisticRegression" "bogus"
                    42 (-1) in
  let fs_b := <[ ["data"; "s1620444"; "01"; "properties"] := Dir ]>
                Example.network_1 in
  predict (Num := Example.numerics) "/data/s1620444/01" "bogus"
          "LogisticRegression" 42 (-1) (World Example.network_1 [])
  = (Raise (Exception "bogus not recognized"), World Example.network_1 [])
  /\ run (World Example.network_1 [])
     = (Raise (Exception "bogus not recognized"), World fs_b []).
Proof.
  intros run fs_b.
  assert (Hnot : ~ In "bogus" feature_sets).
  { simpl. intros [H|[H|[H|[H|[H|[H|[]]]]]]]; discriminate. }
  destruct (unrecognized_feature_set (Num := Example.numerics) "bogus" Hnot)
    as [Hpredict Hsingle].
  split; [apply Hpredict|].
  apply (Hsingle 1 "LogisticRegression" 42 (-1) (World Example.network_1 []));
    reflexivity.
Defined.

(** ** The directories [single] makes *)

Section NewNetwork.

Implicit Types (fs : filesystem) (NN : string).

Lemma plain_endswith s : plain s = true -> Py.endswith s "/" = false.
Proof.
  induction s as [|c s IH]; [done|].
  intros [[Hc _]%andb_prop Hs]%andb_prop. apply negb_true_iff in Hc.
  change (Py.endswith (String c s) "/")
    with (String.eqb (String c s) "/" || Py.endswith s "/").
  rewrite (IH Hs), orb_false_r. simpl. by rewrite Hc.
Qed.

Lemma network_directory_end n : Py.endswith (network_directory n) "/" = false.
Proof.
  unfold network_directory.
  destruct (plain_fmt02 n) as [Hp Hne].
  destruct (Py.fmt02 n) as [|c s] eqn:Hfmt; [done|].
  rewrite endswith_slash_app. by apply plain_endswith.
Qed.

Lemma features_directory n :
  Fs.join (network_directory n) "features"
  = network_directory n +:+ "/" +:+ "features".
Proof.
  apply join_relative;
    [apply network_directory_nonempty|apply network_directory_end|done].
Qed.

Lemma walk_cons_dir fs cur c rest :
  Fs.node_at fs cur = Some Dir ->
  Fs.walk fs cur (c :: rest) = Fs.walk fs (Fs.step cur c) rest.
Proof. intros Hd. cbn [Fs.walk]. by rewrite Hd. Qed.

Lemma mkdirs_cons_dir fs cur c rest :
  Fs.node_at fs cur = Some Dir ->
  Fs.node_at fs (Fs.step cur c) = Some Dir ->
  Fs.mkdirs fs cur (c :: rest) = Fs.mkdirs fs (Fs.step cur c) rest.
Proof. intros Hd Hn. cbn [Fs.mkdirs]. by rewrite Hd, Hn. Qed.

Lemma mkdirs_cons_new fs cur c rest :
  Fs.node_at fs cur = Some Dir ->
  Fs.node_at fs (Fs.step cur c) = None ->
  Fs.mkdirs fs cur (c :: rest)
  = Fs.mkdirs (<[Fs.step cur c := Dir]> fs) (Fs.step cur c) rest.
Proof. intros Hd Hn. cbn [Fs.mkdirs]. by rewrite Hd, Hn. Qed.

Lemma mkdirs_nil fs cur :
  Fs.node_at fs cur = Some Dir -> Fs.mkdirs fs cur [] = Some fs.
Proof. intros Hd. cbn [Fs.mkdirs]. by rewrite Hd. Qed.

Lemma walk_network fs NN leaf :
  plain NN = true -> NN <> "" -> plain leaf = true -> leaf <> "" ->
  fs !! ["data"] = Some Dir ->
  fs !! ["data"; "s1620444"] = Some Dir ->
  fs !! ["data"; "s1620444"; NN] = Some Dir ->
  Fs.walk fs [] [""; "data"; "s1620444"; NN; leaf]
  = Some ["data"; "s1620444"; NN; leaf].
Proof.
  intros HNN Hne Hleaf Hne' H1 H2 H3.
  rewrite walk_cons_dir by done.
  change (Fs.step [] "") with (@nil string).
  rewrite walk_cons_dir by done.
  change (Fs.step [] "data") with ["data"].
  rewrite walk_cons_dir by done.
  change (Fs.step ["data"] "s1620444") with ["data"; "s1620444"].
  rewrite walk_cons_dir by done.
  rewrite (step_plain _ NN) by done.
  rewrite walk_cons_dir by done.
  by rewrite (step_plain _ leaf).
Qed.

Lemma mkdirs_new_network fs NN :
  plain NN = true -> NN <> "" ->
  fs !! ["data"] = Some Dir ->
  fs !! ["data"; "s1620444"] = Some Dir ->
  fs !! ["data"; "s1620444"; NN] = None ->
  fs !! ["data"; "s1620444"; NN; "properties"] = None ->
  let fs1 := <[ ["data"; "s1620444"; NN] := Dir ]> fs in
  let fs2 := <[ ["data"; "s1620444"; NN; "properties"] := Dir ]> fs1 in
  Fs.mkdirs fs [] [""; "data"; "s1620444"; NN] = Some fs1
  /\ Fs.mkdirs fs1 [] [""; "data"; "s1620444"; NN; "properties"] = Some fs2.
Proof.
  intros HNN Hne H1 H2 H3 H4 fs1 fs2.
  assert (Hstep : Fs.step ["data"; "s1620444"] NN = ["data"; "s1620444"; NN])
    by by apply step_plain.
  assert (H1' : fs1 !! ["data"] = Some Dir)
    by by (unfold fs1; rewrite lookup_insert_ne).
  assert (H2' : fs1 !! ["data"; "s1620444"] = Some Dir)
    by by (unfold fs1; rewrite lookup_insert_ne).
  assert (H3' : fs1 !! ["data"; "s1620444"; NN] = Some Dir)
    by by (unfold fs1; rewrite lookup_insert_eq).
  assert (H4' : fs1 !! ["data"; "s1620444"; NN; "properties"] = None)
    by by (unfold fs1; rewrite lookup_insert_ne).
  split.
  - rewrite mkdirs_cons_dir by done.
    change (Fs.step [] "") with (@nil string).
    rewrite mkdirs_cons_dir by done.
    change (Fs.step [] "data") with ["data"].
    rewrite mkdirs_cons_dir by done.
    change (Fs.step ["data"] "s1620444") with ["data"; "s1620444"].
    rewrite mkdirs_cons_new by (by rewrite ?Hstep).
    rewrite Hstep. by apply mkdirs_nil.
  - rewrite mkdirs_cons_dir by done.
    change (Fs.step [] "") with (@nil string).
    rewrite mkdirs_cons_dir by done.
    change (Fs.step [] "data") with ["data"].
    rewrite mkdirs_cons_dir by done.
    change (Fs.step ["data"] "s1620444") with ["data"; "s1620444"].
    rewrite mkdirs_cons_dir by (by rewrite ?Hstep).
    rewrite Hstep.
    rewrite mkdirs_cons_new by done.
    change (Fs.step ["data"; "s1620444"; NN] "properties")
      with ["data"; "s1620444"; NN; "properties"].
    apply mkdirs_nil. apply lookup_insert_eq.
Qed.

(** The data root is there and nothing of network [n] is. *)
Lemma made_dirs_new_network fs n :
  Fs.isdir fs "/data/s1620444" = true ->
  (forall p, network_path n `prefix_of` p -> fs !! p = None) ->
  let fs_b := <[properties_path n := Dir]> (<[network_path n := Dir]> fs) in
  made_dirs fs n = Some fs_b
  /\ Fs.isdir fs_b (Fs.join (network_directory n) "features") = false.
Proof.
  intros Hroot Habsent fs_b.
  assert (H12 : fs !! ["data"] = Some Dir
                /\ fs !! ["data"; "s1620444"] = Some Dir).
  { revert Hroot. unfold Fs.isdir, Fs.resolve.
    change (String.eqb "/data/s1620444" "") with false.
    change (Fs.split_slash "/data/s1620444") with [""; "data"; "s1620444"].
    cbn [Fs.walk].
    change (Fs.step [] "") with (@nil string).
    change (Fs.step [] "data") with ["data"].
    change (Fs.step ["data"] "s1620444") with ["data"; "s1620444"].
    change (Fs.node_at fs []) with (Some Dir). cbn [Fs.is_dir_node].
    destruct (Fs.node_at fs ["data"]) as [[|?]|] eqn:E1;
      cbn [Fs.is_dir_node]; try done.
    destruct (Fs.node_at fs ["data"; "s1620444"]) as [[|?]|] eqn:E2;
      cbn [Fs.is_dir_node]; done. }
  destruct H12 as [H1 H2].
  destruct (plain_fmt02 n) as [Hp Hne].
  assert (H3 : fs !! network_path n = None) by by apply Habsent.
  assert (H4 : fs !! properties_path n = None).
  { apply Habsent. by exists ["properties"]. }
  assert (H5 : fs !! (network_path n ++ ["features"]) = None).
  { apply Habsent. by exists ["features"]. }
  destruct (mkdirs_new_network fs (Py.fmt02 n) Hp Hne H1 H2 H3 H4)
    as [Hmk1 Hmk2].
  split.
  - unfold made_dirs, Fs.makedirs.
    rewrite split_network_directory, split_properties_directory.
    replace (String.eqb (network_directory n) "") with false by done.
    replace (String.eqb (properties_directory n) "") with false by done.
    by rewrite Hmk1.
  - rewrite features_directory. unfold Fs.isdir, Fs.resolve.
    replace (String.eqb _ "") with false by done.
    rewrite split_slash_app, split_network_directory.
    change (Fs.split_slash "features") with ["features"]. simpl app.
    rewrite (walk_network fs_b (Py.fmt02 n) "features"); try done.
    + cbn [Fs.node_at]. unfold fs_b.
      rewrite !lookup_insert_ne by (unfold properties_path, network_path;
                                    congruence).
      change (fs !! ["data"; "s1620444"; Py.fmt02 n; "features"] = None)
        in H5.
      by rewrite H5.
    + unfold fs_b. by rewrite !lookup_insert_ne.
    + unfold fs_b. by rewrite !lookup_insert_ne.
    + unfold fs_b. rewrite lookup_insert_ne by done.
      apply lookup_insert_eq.
Qed.

End NewNetwork.

(** *** When [os.makedirs] succeeds *)

Section Creatable.

Implicit Types (fs : filesystem) (cur : path) (comps : list string).

Lemma node_at_snoc fs cur c : Fs.node_at fs (cur ++ [c]) = fs !! (cur ++ [c]).
Proof. by destruct cur. Qed.

(** Along plain components, [os.makedirs] fails only on a regular
    file. *)
Lemma mkdirs_plain fs cur comps :
  Forall (fun c => plain c = true /\ c <> "") comps ->
  Fs.is_dir_node (Fs.node_at fs cur) = true ->
  (forall k, Fs.is_file_node (Fs.node_at fs (cur ++ take k comps)) = false) ->
  is_Some (Fs.mkdirs fs cur comps).
Proof.
  intros Hplain. revert fs cur.
  induction Hplain as [|c rest [Hc Hne] _ IH]; intros fs cur Hd Hfiles.
  - cbn [Fs.mkdirs]. rewrite Hd. eauto.
  - cbn [Fs.mkdirs]. rewrite Hd, (step_plain cur c Hc Hne).
    assert (Hnext : forall k,
      cur ++ take (S k) (c :: rest) = (cur ++ [c]) ++ take k rest).
    { intros k. by rewrite <-app_assoc. }
    destruct (Fs.node_at fs (cur ++ [c])) as [[|content]|] eqn:Hn.
    + apply IH; [by rewrite Hn|].
      intros k. rewrite <-Hnext. apply Hfiles.
    + pose proof (Hfiles 1%nat) as Hone.
      rewrite (Hnext 0%nat), take_0, app_nil_r, Hn in Hone. discriminate.
    + rewrite node_at_snoc in Hn. apply IH.
      * by rewrite node_at_snoc, lookup_insert_eq.
      * intros k. destruct (decide (cur ++ [c] = (cur ++ [c]) ++ take k rest))
          as [<-|Hother].
        -- by rewrite node_at_snoc, lookup_insert_eq.
        -- pose proof (Hfiles (S k)) as Hk. rewrite Hnext in Hk.
           destruct ((cur ++ [c]) ++ take k rest) as [|x l] eqn:Hp; [done|].
           cbn [Fs.node_at] in *. by rewrite lookup_insert_ne.
Qed.

Lemma makedirs_plain fs comps s :
  s <> "" ->
  Fs.split_slash s = "" :: comps ->
  Forall (fun c => plain c = true /\ c <> "") comps ->
  (forall k, Fs.is_file_node (Fs.node_at fs (take k comps)) = false) ->
  is_Some (Fs.makedirs fs s).
Proof.
  intros Hs Hsplit Hplain Hfiles. unfold Fs.makedirs.
  destruct (String.eqb_spec s "") as [|_]; [done|].
  rewrite Hsplit. rewrite mkdirs_cons_dir by done.
  change (Fs.step [] "") with (@nil string).
  by apply mkdirs_plain.
Qed.

Lemma made_dirs_succeeds fs n :
  no_file_on_the_way fs n -> is_Some (made_dirs fs n).
Proof.
  intros Hfree. unfold made_dirs.
  destruct (plain_fmt02 n) as [Hp Hne].
  assert (Hplain : Forall (fun c => plain c = true /\ c <> "")
                     ["data"; "s1620444"; Py.fmt02 n; "properties"]).
  { repeat constructor; done. }
  assert (Hprefix : forall k1 k2,
    take k1 (take k2 ["data"; "s1620444"; Py.fmt02 n; "properties"])
    `prefix_of` properties_path n).
  { intros k1 k2. etrans; apply prefix_take. }
  destruct (makedirs_plain fs ["data"; "s1620444"; Py.fmt02 n]
              (network_directory n)) as [fs1 Hmk1].
  - apply network_directory_nonempty.
  - apply split_network_directory.
  - repeat constructor; done.
  - intros k. apply Hfree. apply (Hprefix k 3%nat).
  - rewrite Hmk1. apply makedirs_grown in Hmk1 as Hg.
    apply (makedirs_plain fs1 ["data"; "s1620444"; Py.fmt02 n; "properties"]).
    + apply properties_directory_nonempty.
    + apply split_properties_directory.
    + exact Hplain.
    + intros k. pose proof (Hfree _ (Hprefix k 4%nat)) as Hk.
      change (take 4 ["data"; "s1620444"; Py.fmt02 n; "properties"])
        with ["data"; "s1620444"; Py.fmt02 n; "properties"] in Hk.
      destruct (grown_node_at fs fs1
                  (take k ["data"; "s1620444"; Py.fmt02 n; "properties"]) Hg)
        as [->|[_ ->]]; done.
Qed.

End Creatable.

(** C10: where no regular file is in the way, every call of [single]
    ends with the network directory and its [properties/] subdirectory
    in place, whatever it does next; both are made before the cache
    check, so the cached return and the call of [predict] happen on a
    file system where the network directory exists; for a network of
    which nothing existed, exactly these two directories are left
    behind, with nothing else below them. *)
Theorem single_makes_directories `{Num : Numerics} (network : Z)
    (clf feature_set : string) (random_state n_jobs : Z) (w : world) :
  let run := single network clf feature_set random_state n_jobs in
  let directory := network_directory network in
  let directory_out := properties_directory network in
  let artifact := result_path network feature_set clf in
  (no_file_on_the_way (files w) network ->
     Fs.isdir (files (run w).2) directory = true
     /\ Fs.isdir (files (run w).2) directory_out = true)
  /\ (forall fs_b,
        made_dirs (files w) network = Some fs_b ->
        Fs.isdir fs_b directory = true
        /\ Fs.isdir fs_b directory_out = true
        /\ (Fs.isfile fs_b artifact = true ->
            run w = (Return tt,
                     World fs_b (log w ++ [Printed "this is a file"])))
        /\ (Fs.isfile fs_b artifact = false ->
            run w = evaluate_and_store network clf feature_set random_state
                      n_jobs (World fs_b (log w))))
  /\ (Fs.isdir (files w) "/data/s1620444" = true ->
      (forall p, network_path network `prefix_of` p -> files w !! p = None) ->
      files (run w).2
      = <[properties_path network := Dir]>
          (<[network_path network := Dir]> (files w))
      /\ (forall p,
            network_path network `prefix_of` p ->
            is_Some (files (run w).2 !! p) ->
            p = network_path network \/ p = properties_path network)).
Proof.
  intros run directory directory_out artifact.
  subst run directory directory_out artifact. split; [|split].
  - intros [fs_b Hmk]%made_dirs_succeeds.
    destruct (made_dirs_inv network _ _ Hmk) as (_ & Hd & Ho).
    destruct (single_files network clf feature_set random_state n_jobs
                w fs_b Hmk) as [->|[content Hwr]]; [done|].
    split; eapply write_text_isdir; eauto.
  - intros fs_b Hmk.
    destruct (made_dirs_inv network _ _ Hmk) as (_ & Hd & Ho).
    split; [assumption|]. split; [assumption|]. split; intros Hc.
    + by apply single_cached.
    + by apply single_fresh.
  - intros Hroot Habsent.
    destruct (made_dirs_new_network (files w) network Hroot Habsent)
      as [Hmk Hfeat].
    set (fs_b := <[properties_path network := Dir]>
                   (<[network_path network := Dir]> (files w))) in *.
    destruct (made_dirs_inv network _ _ Hmk) as (_ & Hd & _).
    assert (Hfiles :
      files (single network clf feature_set random_state n_jobs w).2 = fs_b).
    { destruct (Fs.isfile fs_b (result_path network feature_set clf)) eqn:Hc.
      - by rewrite (single_cached _ _ _ _ _ w fs_b Hmk Hc).
      - rewrite (single_fresh _ _ _ _ _ w fs_b Hmk Hc).
        unfold evaluate_and_store. rewrite bind_run.
        destruct (select_check feature_set) as [check|] eqn:Hsel.
        + by rewrite predict_no_features.
        + by rewrite predict_unrecognized. }
    split; [exact Hfiles|].
    intros p Hp. rewrite Hfiles. unfold fs_b.
    destruct (decide (properties_path network = p)) as [<-|Hne1]; [auto|].
    rewrite lookup_insert_ne by done.
    destruct (decide (network_path network = p)) as [<-|Hne2]; [auto|].
    rewrite lookup_insert_ne by done.
    rewrite (Habsent p Hp). by intros [? ?].
Qed.

Lemma single_makes_directories_witness :
  let run := single (Num := Example.numerics) 3 "LogisticRegression" "II-A"
                    42 (-1) in
  let after := files (run (World Example.data_root [])).2 in
  (Fs.isdir after "/data/s1620444/03" = true
   /\ Fs.isdir after "/data/s1620444/03/properties" = true)
  /\ after
     = <[ ["data"; "s1620444"; "03"; "properties"] := Dir ]>
         (<[ ["data"; "s1620444"; "03"] := Dir ]> Example.data_root)
  /\ (forall p,
        ["data"; "s1620444"; "03"] `prefix_of` p ->
        is_Some (after !! p) ->
        p = ["data"; "s1620444"; "03"]
        \/ p = ["data"; "s1620444"; "03"; "properties"]).
Proof.
  intros run after.
  destruct (single_makes_directories (Num := Example.numerics) 3
              "LogisticRegression" "II-A" 42 (-1)
              (World Example.data_root [])) as (Hmade & _ & Hnew).
  split.
  - apply Hmade. intros p _. unfold Example.data_root.
    destruct p as [|c p]; [reflexivity|]. cbn [Fs.node_at files].
    rewrite lookup_insert. case_decide; [reflexivity|].
    rewrite lookup_insert. case_decide; [reflexivity|].
    by rewrite lookup_empty.
  - apply Hnew; [reflexivity|].
    intros p [k ->]. unfold Example.data_root. simpl.
    rewrite !lookup_insert_ne by (destruct k; discriminate).
    apply lookup_empty.
Defined.

(** ** Failures in a batch *)

Section BatchFacts.

Context `{Num : Numerics}.

Lemma for_app {A} (l1 l2 : list A) (body : A -> M unit) w :
  for_ (l1 ++ l2) body w
  = match for_ l1 body w with
    | (Return _, w') => for_ l2 body w'
    | (Raise e, w') => (Raise e, w')
    end.
Proof.
  revert w. induction l1 as [|x l1 IH]; intros w; simpl; [reflexivity|].
  rewrite !bind_run. destruct (body x w) as [[[]|e] w1]; [apply IH|done].
Qed.

(** The loop stops at the first body that raises. *)
Lemma for_raise {A} (before : list A) (x : A) (after : list A)
    (body : A -> M unit) w wk e w' :
  for_ before body w = (Return tt, wk) ->
  body x wk = (Raise e, w') ->
  for_ (before ++ x :: after) body w = (Raise e, w').
Proof.
  intros Hbefore Hx. rewrite for_app, Hbefore. simpl.
  by rewrite bind_run, Hx.
Qed.

Lemma discrete_network i (feature_set : list string) w :
  for_ feature_set (fun f =>
    try_except (single_defaults i f) (print (diagnostic i f))) w
  = (Return tt, fold_left unit_run (map (pair i) feature_set) w).
Proof.
  revert w. induction feature_set as [|f l IH]; intros w; simpl;
    [reflexivity|].
  rewrite bind_run. unfold try_except at 1, unit_run at 2. simpl.
  destruct (single_defaults i f w) as [[[]|e] w1]; simpl; apply IH.
Qed.

Lemma discrete_networks (ids : list Z) (feature_set : list string) w :
  for_ ids (fun i : Z =>
    for_ feature_set (fun f =>
      try_except (single_defaults i f) (print (diagnostic i f)))) w
  = (Return tt, fold_left unit_run (list_prod ids feature_set) w).
Proof.
  revert w. induction ids as [|i ids IH]; intros w; simpl; [reflexivity|].
  rewrite bind_run, discrete_network, fold_left_app. apply IH.
Qed.

End BatchFacts.

(** C8: [discrete] never raises: it runs every (network, feature set)
    unit in turn, and a unit whose [single] raised leaves the diagnostic
    line with its network id and feature set in the log before the next
    unit runs.  In [single_all_features] the first [single] that raises
    ends the loop with that exception, the remaining feature sets are
    not run; the sequential loop of [all] ends the same way. *)
Theorem batch_failure_tolerance `{Num : Numerics} :
  (forall (feature_set : list string) (w : world),
     discrete feature_set w
     = (Return tt,
        fold_left unit_run (list_prod discrete_ids feature_set) w))
  /\ (forall (i : Z) (f : string) (w w' : world) (e : exn),
     single_defaults i f w = (Raise e, w') ->
     unit_run w (i, f)
     = World (files w')
             (log w' ++ [Printed ("COULD NOT EXTRACT FEATURES NETWORK ID "
                                  +:+ pretty i +:+ ", FEATURES " +:+ f)]))
  /\ (forall (network : Z) (clf : string) (random_state : pyvalue)
            (n_jobs : Z) (before : list string) (f : string)
            (after : list string) (w wk w' : world) (e : exn),
     feature_sets = before ++ f :: after ->
     for_ before (all_features_step network) w = (Return tt, wk) ->
     single_defaults network f
       (World (files wk)
              (log wk ++ [Printed ("network " +:+ pretty network
                                   +:+ ", feature " +:+ f)]))
     = (Raise e, w') ->
     single_all_features network clf random_state n_jobs w = (Raise e, w'))
  /\ (forall `{Run : Runtime} (network : option Z) (clf : string)
            (n_jobs : Z) (feature_set : string) (do_shuffle : bool)
            (seed : Z) (before : list Z) (k : Z) (after : list Z)
            (w wk w' : world) (e : exn),
     (n_jobs =? -1) || (1 <? n_jobs) = false ->
     scheduled_networks network do_shuffle seed = before ++ k :: after ->
     for_ before
       (fun n => single_all_features n clf (PyStr feature_set) (-1)) w
     = (Return tt, wk) ->
     single_all_features k clf (PyStr feature_set) (-1) wk = (Raise e, w') ->
     all network clf n_jobs feature_set do_shuffle seed w = (Raise e, w')).
Proof.
  split; [|split; [|split]].
  - intros feature_set w. apply discrete_networks.
  - intros i f w w' e Hraise. unfold unit_run. simpl. by rewrite Hraise.
  - intros network clf random_state n_jobs before f after w wk w' e
      Hsets Hbefore Hraise.
    unfold single_all_features. rewrite Hsets.
    apply for_raise with (wk := wk); [assumption|].
    unfold all_features_step. by rewrite bind_run.
  - intros Run network clf n_jobs feature_set do_shuffle seed before k after
      w wk w' e Hseq Hsched Hbefore Hraise.
    unfold all. rewrite Hseq, Hsched.
    by apply for_raise with (wk := wk).
Qed.

Lemma batch_failure_tolerance_witness :
  let w := World Example.network_1_no_labels [] in
  let missing :=
    AssertionError
      "missing samples_filepath='/data/s1620444/01/samples.pkl'" in
  (discrete (Num := Example.numerics) ["bogus"] w).1 = Return tt
  /\ (single_all_features (Num := Example.numerics) 1 "LogisticRegression"
        (PyInt 42) (-1) w).1 = Raise missing
  /\ (all (Num := Example.numerics) (Run := Example.runtime) (Some 1)
        "LogisticRegression" 1 "II-A" true 42 w).1 = Raise missing.
Proof.
  intros w missing.
  destruct (batch_failure_tolerance (Num := Example.numerics))
    as (Hdiscrete & _ & Hfeatures & Hall).
  set (wk := World Example.network_1_no_labels
               [Printed "network 1, feature I"; Printed "this is a file"]).
  set (w' := World Example.network_1_no_labels
               [Printed "network 1, feature I"; Printed "this is a file";
                Printed "network 1, feature II-A"]).
  split; [by rewrite Hdiscrete|].
  split.
  - rewrite (Hfeatures 1 "LogisticRegression" (PyInt 42) (-1) ["I"] "II-A"
               ["II-B"; "III-A"; "III-B"; "I+II-A+III-A"] w wk w' missing);
      reflexivity.
  - rewrite (Hall Example.runtime (Some 1) "LogisticRegression" 1 "II-A"
               true 42 [] 1 [] w w w' missing);
      reflexivity.
Defined.

(** * Further properties *)

(** ** Reading runs *)

Section ReadsFacts.

Context {A B : Type}.
Implicit Types (fs : filesystem).

Lemma reads_weaken fs (m : M A) (Q Q' : outcome A -> list event -> Prop) :
  (forall o t, Q o t -> Q' o t) -> reads fs m Q -> reads fs m Q'.
Proof.
  intros HQ Hm w Hw. destruct (Hm w Hw) as (Hf & t & Ht & Hq). eauto.
Qed.

Lemma reads_bind fs (m : M A) (f : A -> M B)
    (Q1 : outcome A -> list event -> Prop)
    (Q : outcome B -> list event -> Prop) :
  reads fs m Q1 ->
  (forall a t1, Q1 (Return a) t1 ->
                reads fs (f a) (fun o t2 => Q o (t1 ++ t2))) ->
  (forall e t, Q1 (Raise e) t -> Q (Raise e) t) ->
  reads fs (m ≫= f) Q.
Proof.
  intros Hm Hf Hraise w Hw. rewrite bind_run.
  destruct (Hm w Hw) as (Hfiles & t1 & Hlog & HQ1).
  destruct (m w) as [[a|e] w1]; simpl in *.
  - destruct (Hf a t1 HQ1 w1 Hfiles) as (Hfiles2 & t2 & Hlog2 & HQ2).
    split; [assumption|]. exists (t1 ++ t2).
    rewrite Hlog2, Hlog, app_assoc. auto.
  - split; [assumption|]. exists t1. auto.
Qed.

(** A step that looks at the world without changing it. *)
Lemma reads_bind_pure fs (m : M A) (f : A -> M B)
    (Q : outcome B -> list event -> Prop) :
  (forall w, (m w).2 = w) ->
  (forall w a, files w = fs -> (m w).1 = Return a -> reads fs (f a) Q) ->
  (forall w e, files w = fs -> (m w).1 = Raise e -> Q (Raise e) []) ->
  reads fs (m ≫= f) Q.
Proof.
  intros Hsame Hret Hraise w Hw. rewrite bind_run.
  pose proof (Hsame w) as Hw1. pose proof (Hret w) as Hr.
  pose proof (Hraise w) as He.
  destruct (m w) as [[a|e] w1]; simpl in *; subst w1.
  - by apply (Hr a).
  - split; [assumption|]. exists []. rewrite app_nil_r. auto.
Qed.

Lemma reads_bind_emit fs ev (f : unit -> M B)
    (Q : outcome B -> list event -> Prop) :
  reads fs (f tt) (fun o t => Q o (ev :: t)) -> reads fs (emit ev ≫= f) Q.
Proof.
  intros Hf w Hw. rewrite bind_run. simpl.
  destruct (Hf (World (files w) (log w ++ [ev])) Hw) as (Hfiles & t & Hlog & HQ).
  split; [assumption|]. exists (ev :: t).
  split; [|exact HQ]. rewrite Hlog. cbn [log]. by rewrite <-app_assoc.
Qed.

Lemma reads_ret fs (a : A) (Q : outcome A -> list event -> Prop) :
  Q (Return a) [] -> reads fs (mret a) Q.
Proof.
  intros HQ w Hw. split; [assumption|]. exists []. by rewrite app_nil_r.
Qed.

Lemma reads_raise fs e (Q : outcome A -> list event -> Prop) :
  Q (Raise e) [] -> reads fs (raise e) Q.
Proof.
  intros HQ w Hw. split; [assumption|]. exists []. by rewrite app_nil_r.
Qed.

Lemma reads_lift fs (r : outcome A) (Q : outcome A -> list event -> Prop) :
  Q r [] -> reads fs (lift r) Q.
Proof.
  intros HQ w Hw. split; [assumption|]. exists []. by rewrite app_nil_r.
Qed.

End ReadsFacts.

Section ReadsSteps.

Context {B : Type}.
Implicit Types (fs : filesystem) (Q : outcome B -> list event -> Prop).

Lemma reads_bind_ret {A} fs (a : A) (f : A -> M B) Q :
  reads fs (f a) Q -> reads fs (mret a ≫= f) Q.
Proof. intros Hf. apply reads_bind_pure; [done|by intros w ? _ [= <-]|done]. Qed.

Lemma reads_bind_raise {A} fs e (f : A -> M B) Q :
  Q (Raise e) [] -> reads fs (raise e ≫= f) Q.
Proof. intros HQ. apply reads_bind_pure; [done|done|by intros w ? _ [= <-]]. Qed.

Lemma reads_bind_lift {A} fs (r : outcome A) (f : A -> M B) Q :
  (forall a, r = Return a -> reads fs (f a) Q) ->
  (forall e, r = Raise e -> Q (Raise e) []) ->
  reads fs (lift r ≫= f) Q.
Proof. intros Hf HQ. apply reads_bind_pure; [done|..]; intros w ? _; auto. Qed.

Lemma reads_bind_isdir fs s (f : bool -> M B) Q :
  reads fs (f (Fs.isdir fs s)) Q -> reads fs (Os.isdir s ≫= f) Q.
Proof.
  intros Hf. apply reads_bind_pure; [done| |done].
  intros w a <- [= <-]. exact Hf.
Qed.

Lemma reads_bind_isfile fs s (f : bool -> M B) Q :
  reads fs (f (Fs.isfile fs s)) Q -> reads fs (Os.isfile s ≫= f) Q.
Proof.
  intros Hf. apply reads_bind_pure; [done| |done].
  intros w a <- [= <-]. exact Hf.
Qed.

Lemma reads_bind_assert fs cond msg (f : unit -> M B) Q :
  (cond = true -> reads fs (f tt) Q) ->
  (cond = false -> Q (Raise (AssertionError msg)) []) ->
  reads fs (assert_ cond msg ≫= f) Q.
Proof.
  intros Hf HQ. destruct cond.
  - apply reads_bind_ret. auto.
  - apply reads_bind_raise. auto.
Qed.

Lemma reads_bind_scandir fs s (f : list string -> M B) Q :
  (forall names, Fs.scandir fs s = Some names -> reads fs (f names) Q) ->
  Q (Raise (OSError s)) [] ->
  reads fs (Os.scandir s ≫= f) Q.
Proof.
  intros Hf HQ. apply reads_bind_pure.
  - intros w. unfold Os.scandir. by destruct (Fs.scandir (files w) s).
  - intros w names <-. unfold Os.scandir.
    destruct (Fs.scandir (files w) s) eqn:Hs; [|done].
    intros [= <-]. auto.
  - intros w e _. unfold Os.scandir.
    destruct (Fs.scandir (files w) s); [done|]. by intros [= <-].
Qed.

Lemma reads_bind_read_bytes fs s (f : string -> M B) Q :
  (forall content, reads fs (f content) Q) ->
  Q (Raise (OSError s)) [] ->
  reads fs (Os.read_bytes s ≫= f) Q.
Proof.
  intros Hf HQ. apply reads_bind_pure.
  - intros w. unfold Os.read_bytes. by destruct (Fs.read_bytes (files w) s).
  - intros w content _ _. auto.
  - intros w e _. unfold Os.read_bytes.
    destruct (Fs.read_bytes (files w) s); [done|]. by intros [= <-].
Qed.

End ReadsSteps.

Section ReadsLoops.

Implicit Types (fs : filesystem) (P : event -> Prop).

Lemma reads_for {A} fs P (l : list A) (body : A -> M unit) :
  (forall x, In x l -> reads fs (body x) (fun _ t => Forall P t)) ->
  reads fs (for_ l body) (fun _ t => Forall P t).
Proof.
  induction l as [|x l IH]; intros Hbody; simpl.
  - by apply reads_ret.
  - eapply reads_bind; [apply Hbody; by left| |auto].
    intros [] t1 Ht1. eapply reads_weaken; [|apply IH].
    + intros o t2 Ht2. by apply Forall_app.
    + intros y Hy. apply Hbody. by right.
Qed.

Lemma reads_for_collect {A B} fs P (l : list A) (f : A -> M B) :
  (forall x, In x l -> reads fs (f x) (fun _ t => Forall P t)) ->
  reads fs (for_collect l f) (fun _ t => Forall P t).
Proof.
  induction l as [|x l IH]; intros Hf; simpl.
  - by apply reads_ret.
  - eapply reads_bind; [apply Hf; by left| |auto].
    intros y t1 Ht1.
    eapply reads_bind; [apply IH; intros z Hz; apply Hf; by right| |].
    + intros ys t2 Ht2. apply reads_ret.
      rewrite app_nil_r. by apply Forall_app.
    + intros e t2 Ht2. by apply Forall_app.
Qed.

End ReadsLoops.

(** ** What [predict] logs *)

Section PredictTrace.

Context `{Num : Numerics}.

Lemma reads_load_columns fs feature_dir names :
  reads fs (load_columns feature_dir names)
    (fun _ t => Forall (fun ev => exists name,
                          In name names
                          /\ ev = NpLoad (Fs.join feature_dir name)) t).
Proof.
  unfold load_columns. apply reads_for_collect. intros name Hname.
  apply reads_bind_emit. apply reads_bind_read_bytes; [|by repeat constructor; eauto].
  intros bytes. apply reads_bind_lift.
  - intros a _. apply reads_ret. repeat constructor. eauto.
  - intros e _. repeat constructor. eauto.
Qed.

Lemma evaluations_quiet t :
  Forall (fun ev => is_fit ev = false) t -> evaluations t = 0%nat.
Proof.
  unfold evaluations. induction 1 as [|ev t Hev _ IH]; [reflexivity|].
  simpl. by rewrite Hev.
Qed.

Lemma predict_trace directory feature_set check clf random_state n_jobs fs :
  select_check feature_set = Some check ->
  reads fs (predict directory feature_set clf random_state n_jobs)
    (predict_post fs (Fs.join directory "features") check clf
                  random_state n_jobs).
Proof.
  intros Hsel.
  set (feature_dir := Fs.join directory "features").
  set (Q := predict_post fs feature_dir check clf random_state n_jobs).
  assert (Hnil : forall e, Q (Raise e) []).
  { intros e. repeat split; try constructor. discriminate. }
  assert (Hquiet : forall (o : outcome (option auc_t)) t,
    (forall a, o <> Return (Some a)) ->
    Forall (loads_selected fs feature_dir check) t ->
    Forall (fun ev => is_fit ev = false) t ->
    Q o t).
  { intros o t Ho Hloads Hfit. split; [assumption|]. split.
    - eapply Forall_impl; [exact Hfit|]. intros ev Hev pipe ->. discriminate.
    - intros a Ha. by destruct (Ho a). }
  unfold predict. rewrite Hsel.
  apply reads_bind_ret, reads_bind_isdir.
  apply reads_bind_assert; [intros _|auto].
  apply reads_bind_isdir. fold feature_dir.
  destruct (negb (Fs.isdir fs feature_dir)).
  { apply reads_bind_emit, reads_ret. apply Hquiet; [discriminate|..];
      repeat constructor. intros path [=]. }
  apply reads_bind_isfile.
  apply reads_bind_assert; [intros _|auto].
  apply reads_bind_scandir; [|auto]. intros entries Hentries.
  eapply reads_bind; [apply reads_load_columns| |].
  2:{ intros e t Ht. apply Hquiet; [discriminate|..].
      - eapply Forall_impl; [exact Ht|].
        intros ev (name & [Hin Hcheck]%filter_In & ->) path [= <-].
        exists name, entries. auto.
      - eapply Forall_impl; [exact Ht|]. by intros ev (name & _ & ->). }
  intros columns t1 Ht1.
  assert (Hloads1 : Forall (loads_selected fs feature_dir check) t1).
  { eapply Forall_impl; [exact Ht1|].
    intros ev (name & [Hin Hcheck]%filter_In & ->) path [= <-].
    exists name, entries. auto. }
  assert (Hfit1 : Forall (fun ev => is_fit ev = false) t1).
  { eapply Forall_impl; [exact Ht1|]. by intros ev (name & _ & ->). }
  clear Ht1.
  assert (Hraise1 : forall e t2,
    Forall (fun ev => is_fit ev = false /\ forall p, ev <> NpLoad p) t2 ->
    Q (Raise e) (t1 ++ t2)).
  { intros e t2 Ht2. apply Hquiet; [discriminate|..]; apply Forall_app;
      (split; [assumption|]); eapply Forall_impl; try exact Ht2.
    - intros ev [_ Hev] path ->. by destruct (Hev path).
    - by intros ev [Hev _]. }
  apply reads_bind_lift; [intros X _|intros e _; apply (Hraise1 e []); constructor].
  apply reads_bind_scandir;
    [intros entries' _|apply (Hraise1 _ []); constructor].
  eapply reads_bind;
    [apply (reads_for fs (fun ev => exists s, ev = Printed s))| |].
  { intros name _ w Hw. split; [assumption|]. exists [Printed name].
    split; [reflexivity|]. repeat constructor. eauto. }
  2:{ intros e t Ht. apply Hraise1. eapply Forall_impl; [exact Ht|].
      intros ev [s ->]. split; [reflexivity|discriminate]. }
  intros [] t2 Ht2.
  assert (Ht2' : Forall (fun ev => is_fit ev = false
                                   /\ forall p, ev <> NpLoad p) t2).
  { eapply Forall_impl; [exact Ht2|].
    intros ev [s ->]. split; [reflexivity|discriminate]. }
  clear Ht2.
  set (samples := Fs.join directory "samples.pkl").
  assert (Hraise2 : forall e t3,
    Forall (fun ev => is_fit ev = false /\ forall p, ev <> NpLoad p) t3 ->
    Q (Raise e) (t1 ++ t2 ++ t3)).
  { intros e t3 Ht3. apply Hraise1. by apply Forall_app. }
  apply reads_bind_emit.
  apply reads_bind_read_bytes.
  2:{ apply (Hraise2 _ [ReadPickle samples]). by repeat constructor. }
  intros bytes. apply reads_bind_lift.
  2:{ intros e _. apply (Hraise2 _ [ReadPickle samples]).
      by repeat constructor. }
  intros y _. apply reads_bind_emit. apply reads_bind_lift.
  2:{ intros e _.
      apply (Hraise2 _ [ReadPickle samples; TrainTestSplit random_state]).
      by repeat constructor. }
  intros parts _.
  destruct (make_pipe clf random_state n_jobs) as [pipe|] eqn:Hpipe.
  2:{ apply reads_bind_raise.
      apply (Hraise2 _ [ReadPickle samples; TrainTestSplit random_state]).
      by repeat constructor. }
  apply reads_bind_ret, reads_bind_emit.
  assert (Hend : forall o : outcome (option auc_t),
    Q o (t1 ++ t2 ++ [ReadPickle samples; TrainTestSplit random_state;
                      Fit pipe])).
  { intros o. split; [|split].
    - apply Forall_app. split; [assumption|]. apply Forall_app. split.
      + eapply Forall_impl; [exact Ht2'|].
        intros ev [_ Hev] path ->. by destruct (Hev path).
      + repeat constructor; intros path [=].
    - apply Forall_app. split.
      { eapply Forall_impl; [exact Hfit1|]. intros ev Hev p ->. discriminate. }
      apply Forall_app. split.
      { eapply Forall_impl; [exact Ht2'|]. intros ev [Hev _] p ->.
        discriminate. }
      repeat constructor; intros p [=]. by subst.
    - intros a _. rewrite !evaluations_app.
      rewrite (evaluations_quiet t1 Hfit1).
      rewrite (evaluations_quiet t2); [reflexivity|].
      eapply Forall_impl; [exact Ht2'|]. by intros ev [Hev _]. }
  apply reads_bind_lift.
  - intros a _. apply reads_ret. apply Hend.
  - intros e _. apply Hend.
Qed.

End PredictTrace.

Section PredictLog.

Context `{Num : Numerics}.

(** The log of one call of [predict], whatever the feature set. *)
Lemma predict_log directory feature_set clf random_state n_jobs w :
  let r := predict directory feature_set clf random_state n_jobs w in
  files r.2 = files w
  /\ exists t,
       log r.2 = log w ++ t
       /\ Forall (fits_pipe clf random_state n_jobs) t
       /\ (evaluations t <= 1)%nat
       /\ (forall a, r.1 = Return (Some a) -> evaluations t = 1%nat)
       /\ (r.1 = Return None -> evaluations t = 0%nat)
       /\ (forall check, select_check feature_set = Some check ->
             Forall (loads_selected (files w) (Fs.join directory "features")
                                    check) t).
Proof.
  intros r. subst r.
  destruct (predict_spec directory feature_set clf random_state n_jobs w)
    as (Hfiles & t & Hlog & Hle & Hnone).
  split; [assumption|]. exists t. split; [assumption|].
  destruct (select_check feature_set) as [check|] eqn:Hsel.
  - destruct (predict_trace directory feature_set check clf random_state
                n_jobs (files w) Hsel w eq_refl)
      as (_ & t' & Hlog' & Hloads & Hfits & Hsome).
    assert (t' = t) as -> by (apply (app_inv_head (log w)); congruence).
    repeat split; try assumption. by intros ? [= <-].
  - rewrite predict_unrecognized in * by done. simpl in *.
    assert (t = []) as ->.
    { apply (app_inv_head (log w)). by rewrite app_nil_r. }
    repeat split; try assumption; try constructor; discriminate.
Qed.

Lemma fits_none_quiet clf random_state n_jobs t :
  make_pipe clf random_state n_jobs = None ->
  Forall (fits_pipe clf random_state n_jobs) t ->
  evaluations t = 0%nat.
Proof.
  intros Hnone Hfits. apply evaluations_quiet.
  eapply Forall_impl; [exact Hfits|].
  intros [| | | |pipe] Hev; try reflexivity.
  specialize (Hev pipe eq_refl). congruence.
Qed.

Lemma make_pipe_unknown clf random_state n_jobs :
  ~ In clf classifiers <-> make_pipe clf random_state n_jobs = None.
Proof.
  unfold make_pipe, classifiers. simpl.
  repeat match goal with
  | |- context [String.eqb ?a ?b] =>
      destruct (String.eqb_spec a b) as [->|?]; [split; [tauto|discriminate]|]
  end.
  split; [reflexivity|]. intros _ [?|[?|[?|[]]]]; congruence.
Qed.

(** The three ways the evaluation branch of [single] ends. *)
Lemma evaluate_and_store_cases network clf feature_set random_state n_jobs w :
  let p := predict (network_directory network) feature_set clf random_state
                   n_jobs w in
  let store := evaluate_and_store network clf feature_set random_state n_jobs in
  let artifact := result_path network feature_set clf in
  match p.1 with
  | Raise e => store w = (Raise e, p.2)
  | Return None =>
      store w = (Return tt, World (files p.2) (log p.2 ++ [Printed "None"]))
  | Return (Some a) =>
      match Fs.write_text (files p.2) artifact (str_auc a) with
      | Some fs_c =>
          store w = (Return tt,
                     World fs_c (log p.2 ++ [Printed (str_auc a)]))
      | None =>
          store w = (Raise (OSError artifact),
                     World (files p.2) (log p.2 ++ [Printed (str_auc a)]))
      end
  end.
Proof.
  intros p store artifact. subst p store artifact.
  unfold evaluate_and_store. rewrite bind_run.
  destruct (predict _ _ _ _ _ w) as [[[a|]|e] w1]; simpl; try reflexivity.
  rewrite bind_run. simpl. unfold Os.write_text. simpl.
  by destruct (Fs.write_text (files w1) _ _).
Qed.

End PredictLog.

Section FsRoundTrip.

Implicit Types (fs : filesystem).


(** Writing where [os.path.isfile] is false puts a file where there was
    nothing. *)
Lemma write_text_new fs s content fs' :
  Fs.isfile fs s = false ->
  Fs.write_text fs s content = Some fs' ->
  exists q, fs !! q = None /\ fs' = <[q := File content]> fs.
Proof.
  intros Hfile (q & Hr & Hd & Hq & ->)%write_text_inv.
  exists q. split; [|reflexivity].
  unfold Fs.isfile in Hfile. rewrite Hr in Hfile.
  destruct q as [|c q]; [done|]. cbn [Fs.node_at] in *.
  by destruct (fs !! (c :: q)) as [[|?]|].
Qed.

Lemma keeps_files_refl fs : keeps_files fs fs.
Proof. by intros p content. Qed.

Lemma keeps_files_trans fs1 fs2 fs3 :
  keeps_files fs1 fs2 -> keeps_files fs2 fs3 -> keeps_files fs1 fs3.
Proof. intros H12 H23 p content Hp. by apply H23, H12. Qed.

Lemma grown_keeps_files fs fs' : grown fs fs' -> keeps_files fs fs'.
Proof. intros Hg p content Hp. by apply (grown_same_files _ _ Hg). Qed.

Lemma insert_keeps_files fs q n :
  fs !! q = None -> keeps_files fs (<[q := n]> fs).
Proof.
  intros Hq p content Hp. rewrite lookup_insert_ne; [done|]. congruence.
Qed.

End FsRoundTrip.

Section ContinuesFacts.

Implicit Types (P : event -> Prop) (w : world).

Lemma continues_refl P w : continues P w w.
Proof.
  split; [apply keeps_files_refl|]. exists []. by rewrite app_nil_r.
Qed.

Lemma continues_trans P w1 w2 w3 :
  continues P w1 w2 -> continues P w2 w3 -> continues P w1 w3.
Proof.
  intros [Hk12 (t1 & Hl1 & Ht1)] [Hk23 (t2 & Hl2 & Ht2)].
  split; [by eapply keeps_files_trans|]. exists (t1 ++ t2).
  rewrite Hl2, Hl1, app_assoc. split; [reflexivity|]. by apply Forall_app.
Qed.

Lemma continues_emit P w ev :
  P ev -> continues P w (World (files w) (log w ++ [ev])).
Proof.
  intros Hev. split; [apply keeps_files_refl|]. exists [ev]. by repeat constructor.
Qed.

Lemma for_continues {A} P (l : list A) (body : A -> M unit) :
  (forall x w, continues P w (body x w).2) ->
  forall w, continues P w (for_ l body w).2.
Proof.
  intros Hbody. induction l as [|x l IH]; intros w; simpl.
  - apply continues_refl.
  - rewrite bind_run. pose proof (Hbody x w) as Hx.
    destruct (body x w) as [[[]|e] w1]; simpl in *; [|assumption].
    eapply continues_trans; [exact Hx|apply IH].
Qed.

Lemma try_except_continues P (body : M unit) line w :
  P (Printed line) ->
  continues P w (body w).2 ->
  continues P w (try_except body (print line) w).2.
Proof.
  intros Hline Hbody. unfold try_except.
  destruct (body w) as [[[]|e] w1]; simpl in *; [assumption|].
  eapply continues_trans; [exact Hbody|]. by apply continues_emit.
Qed.

End ContinuesFacts.

Section SingleContinues.

Context `{Num : Numerics}.
Variables (network : Z) (clf feature_set : string) (random_state n_jobs : Z).

(** The files after [single]: those after [os.makedirs], with at most
    one new regular file. *)
Lemma single_files_cases w fs_b :
  made_dirs (files w) network = Some fs_b ->
  let after := files (single network clf feature_set random_state n_jobs w).2 in
  after = fs_b
  \/ (exists q content,
        fs_b !! q = None /\ after = <[q := File content]> fs_b).
Proof.
  intros Hmk after. subst after.
  destruct (Fs.isfile fs_b (result_path network feature_set clf)) eqn:Hc.
  - rewrite (single_cached _ _ _ _ _ w fs_b Hmk Hc). by left.
  - rewrite (single_fresh _ _ _ _ _ w fs_b Hmk Hc).
    pose proof (evaluate_and_store_cases network clf feature_set random_state
                  n_jobs (World fs_b (log w))) as Hcases.
    destruct (predict_log (network_directory network) feature_set clf
                random_state n_jobs (World fs_b (log w))) as [Hfiles _].
    simpl in Hcases, Hfiles.
    destruct (predict _ _ _ _ _ _) as [[[a|]|e] w1]; simpl in *.
    + rewrite Hfiles in Hcases.
      destruct (Fs.write_text fs_b _ _) as [fs_c|] eqn:Hwr;
        rewrite Hcases; simpl; [|by left].
      right. destruct (write_text_new _ _ _ _ Hc Hwr) as (q & Hq & ->).
      eauto.
    + rewrite Hcases. by left.
    + rewrite Hcases. by left.
Qed.

Lemma single_keeps_files w :
  keeps_files (files w)
              (files (single network clf feature_set random_state n_jobs w).2).
Proof.
  destruct (made_dirs (files w) network) as [fs_b|] eqn:Hmk.
  - destruct (made_dirs_inv network _ _ Hmk) as (Hg & _ & _).
    eapply keeps_files_trans; [by apply grown_keeps_files|].
    destruct (single_files_cases w fs_b Hmk) as [->|(q & content & Hq & ->)].
    + apply keeps_files_refl.
    + by apply insert_keeps_files.
  - destruct (single_no_dirs network clf feature_set random_state n_jobs
                w Hmk) as (p & fs1 & -> & Hg).
    by apply grown_keeps_files.
Qed.

Lemma single_log_fits w :
  exists t,
    log (single network clf feature_set random_state n_jobs w).2 = log w ++ t
    /\ Forall (fits_pipe clf random_state n_jobs) t.
Proof.
  assert (Hprinted : forall line, fits_pipe clf random_state n_jobs
                                    (Printed line)) by by intros line pipe.
  destruct (made_dirs (files w) network) as [fs_b|] eqn:Hmk.
  2:{ destruct (single_no_dirs network clf feature_set random_state n_jobs
                  w Hmk) as (p & fs1 & -> & _).
      exists []. by rewrite app_nil_r. }
  destruct (Fs.isfile fs_b (result_path network feature_set clf)) eqn:Hc.
  { rewrite (single_cached _ _ _ _ _ w fs_b Hmk Hc). simpl.
    exists [Printed "this is a file"]. by repeat constructor. }
  rewrite (single_fresh _ _ _ _ _ w fs_b Hmk Hc).
  pose proof (evaluate_and_store_cases network clf feature_set random_state
                n_jobs (World fs_b (log w))) as Hcases.
  destruct (predict_log (network_directory network) feature_set clf
              random_state n_jobs (World fs_b (log w)))
    as (_ & t & Hlog & Hfits & _).
  simpl in Hcases, Hlog.
  destruct (predict _ _ _ _ _ _) as [[[a|]|e] w1]; simpl in *.
  - exists (t ++ [Printed (str_auc a)]).
    split; [|apply Forall_app; by repeat constructor].
    destruct (Fs.write_text _ _ _); rewrite Hcases; simpl;
      by rewrite Hlog, <-app_assoc.
  - exists (t ++ [Printed "None"]).
    split; [|apply Forall_app; by repeat constructor].
    rewrite Hcases. simpl. by rewrite Hlog, <-app_assoc.
  - exists t. rewrite Hcases. auto.
Qed.

Lemma single_continues w :
  continues (fits_pipe clf random_state n_jobs) w
            (single network clf feature_set random_state n_jobs w).2.
Proof. split; [apply single_keeps_files|apply single_log_fits]. Qed.

(** A cached result under [properties/]: [single] returns at once and
    the world only gains the printed line. *)
Lemma single_cached_here w :
  Py.startswith feature_set "/" = false ->
  Fs.isfile (files w) (result_path network feature_set clf) = true ->
  single network clf feature_set random_state n_jobs w
  = (Return tt, World (files w) (log w ++ [Printed "this is a file"])).
Proof.
  intros Hrel Hc.
  destruct (isfile_result_isdir _ _ _ _ Hrel Hc) as [Hd Ho].
  apply single_cached; [by apply made_dirs_noop|assumption].
Qed.

End SingleContinues.

(** ** The feature sets against each other *)

Lemma static_not_node_activity (x : string) :
  Py.str_in x static_features = true -> Py.startswith x "na" = false.
Proof.
  unfold Py.str_in. rewrite existsb_exists.
  intros (y & Hy & Heq). apply String.eqb_eq in Heq as ->.
  simpl in Hy. by destruct Hy as [<-|[<-|[<-|[<-|[]]]]].
Qed.

(** X1: the static features (set I) are among those of II-B, those of
    II-B among those of II-A, those of III-B among those of III-A, and
    every filename is selected by exactly one of II-A and III-A. *)
Theorem feature_sets_nested (x : string) :
  (check_I x = true -> check_II_B x = true)
  /\ (check_II_B x = true -> check_II_A x = true)
  /\ (check_III_B x = true -> check_III_A x = true)
  /\ (check_II_A x = true <-> check_III_A x = false).
Proof.
  unfold check_I, check_II_B, check_II_A, check_III_B, check_III_A.
  repeat split.
  - intros Hstatic. rewrite Hstatic, (static_not_node_activity x Hstatic).
    reflexivity.
  - by intros [_ Hna]%andb_prop.
  - by intros [Hna _]%andb_prop.
  - by intros ->%negb_true_iff.
  - by intros ->.
Qed.

(** ** [predict]: what it reads, loads and fits *)

(** X2: [predict] never changes the file system, and it only appends to
    the log, whatever its arguments and its outcome. *)
Theorem predict_reads_only `{Num : Numerics} (directory feature_set
    clf : string) (random_state n_jobs : Z) (w : world) :
  let r := predict directory feature_set clf random_state n_jobs w in
  files r.2 = files w /\ exists t, log r.2 = log w ++ t.
Proof.
  intros r.
  destruct (predict_log directory feature_set clf random_state n_jobs w)
    as (Hfiles & t & Hlog & _).
  split; [exact Hfiles|]. by exists t.
Qed.

(** [repr] on the paths [single] builds, on a single quote, on both
    quotes, and on a backslash, a line feed and a control character. *)
Lemma repr_examples :
  Py.repr "/data/s1620444/01" = "'/data/s1620444/01'"
  /\ Py.repr "/data/it's" = String "034" ("/data/it's" +:+ String "034" "")
  /\ Py.repr (String "034" "it's")
     = "'" +:+ String "034" ("it" +:+ String "092" "'s'")
  /\ Py.repr (String "092" (String "010" (String "127" "")))
     = "'" +:+ String "092" (String "092" (String "092" "n"))
       +:+ String "092" "x7f'".
Proof. repeat split. Qed.

(** X3: with a recognized feature set, [predict] on a directory that
    does not exist fails its first assertion, and on a directory with
    [features/] but no [samples.pkl] fails its second one; the message
    is [missing directory=] or [missing samples_filepath=] followed by
    the [repr] of the path (stated for ASCII paths), and both leave the
    world as it was: nothing is loaded or printed. *)
Theorem predict_assertions `{Num : Numerics} (feature_set : string) :
  In feature_set feature_sets ->
  (forall (directory clf : string) (random_state n_jobs : Z) (w : world),
     Py.isascii directory = true ->
     Fs.isdir (files w) directory = false ->
     predict directory feature_set clf random_state n_jobs w
     = (Raise (AssertionError ("missing directory=" +:+ Py.repr directory)),
        w))
  /\ (forall (directory clf : string) (random_state n_jobs : Z) (w : world),
     Py.isascii directory = true ->
     Fs.isdir (files w) directory = true ->
     Fs.isdir (files w) (Fs.join directory "features") = true ->
     Fs.isfile (files w) (Fs.join directory "samples.pkl") = false ->
     predict directory feature_set clf random_state n_jobs w
     = (Raise (AssertionError
                 ("missing samples_filepath="
                  +:+ Py.repr (Fs.join directory "samples.pkl"))),
        w)).
Proof.
  intros [check Hsel]%select_check_recognized. split.
  - intros directory clf random_state n_jobs w _ Hd.
    unfold predict. rewrite Hsel.
    rewrite bind_run. simpl. rewrite bind_run. unfold Os.isdir at 1. simpl.
    rewrite Hd. by rewrite bind_run.
  - intros directory clf random_state n_jobs w _ Hd Hf Hs.
    unfold predict. rewrite Hsel.
    rewrite bind_run. simpl. rewrite bind_run. unfold Os.isdir at 1. simpl.
    rewrite Hd. rewrite bind_run. simpl. rewrite bind_run.
    unfold Os.isdir at 1. simpl. rewrite Hf. simpl.
    rewrite bind_run. unfold Os.isfile at 1. simpl. rewrite Hs.
    by rewrite bind_run.
Qed.

Lemma predict_assertions_witness :
  predict (Num := Example.numerics) "/data/it's" "II-A"
          "LogisticRegression" 42 (-1) (World Example.data_root [])
  = (Raise (AssertionError
              ("missing directory="
               +:+ String "034" ("/data/it's" +:+ String "034" ""))),
     World Example.data_root [])
  /\ predict (Num := Example.numerics) "/data/s1620444/01" "II-A"
          "LogisticRegression" 42 (-1) (World Example.network_1_no_labels [])
  = (Raise (AssertionError
              "missing samples_filepath='/data/s1620444/01/samples.pkl'"),
     World Example.network_1_no_labels []).
Proof.
  assert (Hin : In "II-A" feature_sets) by (simpl; tauto).
  destruct (predict_assertions (Num := Example.numerics) "II-A" Hin)
    as [Hdir Hlabels].
  split.
  - apply (Hdir "/data/it's"); reflexivity.
  - apply (Hlabels "/data/s1620444/01"); reflexivity.
Defined.

(** X4: with a recognized feature set, every file [predict] loads with
    [np.load] is an entry of the [features/] directory whose name the
    selected predicate accepts. *)
Theorem predict_loads_selected `{Num : Numerics} (directory feature_set
    clf : string) (check : string -> bool) (random_state n_jobs : Z)
    (w : world) :
  select_check feature_set = Some check ->
  let feature_dir := Fs.join directory "features" in
  exists t,
    log (predict directory feature_set clf random_state n_jobs w).2
    = log w ++ t
    /\ (forall path, In (NpLoad path) t ->
          exists name names,
            Fs.scandir (files w) feature_dir = Some names
            /\ In name names
            /\ check name = true
            /\ path = Fs.join feature_dir name).
Proof.
  intros Hsel feature_dir.
  destruct (predict_log directory feature_set clf random_state n_jobs w)
    as (_ & t & Hlog & _ & _ & _ & _ & Hloads).
  exists t. split; [exact Hlog|].
  intros path Hin%list_elem_of_In. specialize (Hloads check Hsel).
  rewrite Forall_forall in Hloads. by apply (Hloads (NpLoad path)).
Qed.

Lemma predict_loads_selected_witness :
  exists t,
    log (predict (Num := Example.numerics) "/data/s1620444/01" "I"
           "LogisticRegression" 42 (-1) (World Example.network_1 [])).2
    = [] ++ t
    /\ (forall path, In (NpLoad path) t ->
          exists name names,
            Fs.scandir Example.network_1 (Fs.join "/data/s1620444/01"
                                                  "features") = Some names
            /\ In name names
            /\ check_I name = true
            /\ path = Fs.join (Fs.join "/data/s1620444/01" "features") name).
Proof.
  apply (predict_loads_selected (Num := Example.numerics)
           "/data/s1620444/01" "I" "LogisticRegression" check_I 42 (-1)
           (World Example.network_1 [])).
  reflexivity.
Defined.

(** X5: every model [predict] fits is the estimator [make_pipe] builds
    from its [clf], [random_state] and [n_jobs]; it fits at most one,
    and it returns an AUC only after fitting exactly one. *)
Theorem predict_fits_make_pipe `{Num : Numerics} (directory feature_set
    clf : string) (random_state n_jobs : Z) (w : world) :
  let r := predict directory feature_set clf random_state n_jobs w in
  exists t,
    log r.2 = log w ++ t
    /\ (forall pipe, In (Fit pipe) t ->
          make_pipe clf random_state n_jobs = Some pipe)
    /\ (evaluations t <= 1)%nat
    /\ (forall a, r.1 = Return (Some a) -> evaluations t = 1%nat).
Proof.
  intros r.
  destruct (predict_log directory feature_set clf random_state n_jobs w)
    as (_ & t & Hlog & Hfits & Hle & Hsome & _).
  exists t. repeat split; try assumption.
  intros pipe Hin%list_elem_of_In. rewrite Forall_forall in Hfits.
  by apply (Hfits (Fit pipe)).
Qed.

(** X6: with a classifier name outside the three known ones, [predict]
    fits no model and never returns an AUC, and [single] fits no model
    and creates, changes or removes no regular file. *)
Theorem unknown_classifier `{Num : Numerics} (clf : string) :
  ~ In clf ["LogisticRegression"; "RandomForest"; "XGBoost"] ->
  (forall (directory feature_set : string) (random_state n_jobs : Z)
          (w : world),
     let r := predict directory feature_set clf random_state n_jobs w in
     evaluations (log r.2) = evaluations (log w)
     /\ forall a, r.1 <> Return (Some a))
  /\ (forall (network : Z) (feature_set : string) (random_state n_jobs : Z)
            (w : world),
     let r := single network clf feature_set random_state n_jobs w in
     evaluations (log r.2) = evaluations (log w)
     /\ same_files (files w) (files r.2)).
Proof.
  intros Hclf.
  assert (Hnone : forall random_state n_jobs,
            make_pipe clf random_state n_jobs = None).
  { intros. by apply make_pipe_unknown. }
  assert (Hpredict : forall directory feature_set random_state n_jobs w,
    let r := predict directory feature_set clf random_state n_jobs w in
    files r.2 = files w
    /\ evaluations (log r.2) = evaluations (log w)
    /\ forall a, r.1 <> Return (Some a)).
  { intros directory feature_set random_state n_jobs w r.
    destruct (predict_log directory feature_set clf random_state n_jobs w)
      as (Hfiles & t & Hlog & Hfits & _ & Hsome & _).
    pose proof (fits_none_quiet _ _ _ t (Hnone _ _) Hfits) as Hzero.
    split; [exact Hfiles|]. split.
    - subst r. rewrite Hlog, evaluations_app, Hzero. lia.
    - intros a Ha. specialize (Hsome a Ha). congruence. }
  split.
  { intros directory feature_set random_state n_jobs w r.
    apply Hpredict. }
  intros network feature_set random_state n_jobs w r. subst r.
  destruct (made_dirs (files w) network) as [fs_b|] eqn:Hmk.
  2:{ destruct (single_no_dirs network clf feature_set random_state n_jobs
                  w Hmk) as (p & fs1 & -> & Hg).
      split; [reflexivity|by apply grown_same_files]. }
  destruct (made_dirs_inv network _ _ Hmk) as (Hg & _ & _).
  destruct (Fs.isfile fs_b (result_path network feature_set clf)) eqn:Hc.
  { rewrite (single_cached _ _ _ _ _ w fs_b Hmk Hc). simpl.
    split; [|by apply grown_same_files].
    rewrite evaluations_app, evaluations_printed. lia. }
  rewrite (single_fresh _ _ _ _ _ w fs_b Hmk Hc).
  pose proof (evaluate_and_store_cases network clf feature_set random_state
                n_jobs (World fs_b (log w))) as Hcases.
  destruct (Hpredict (network_directory network) feature_set random_state
              n_jobs (World fs_b (log w))) as (Hfiles & Heval & Hsome).
  simpl in Hcases, Hfiles, Heval, Hsome.
  destruct (predict _ _ _ _ _ _) as [[[a|]|e] w1]; simpl in *.
  - by destruct (Hsome a).
  - rewrite Hcases. simpl. rewrite Hfiles.
    split; [|by apply grown_same_files].
    rewrite evaluations_app, evaluations_printed. lia.
  - rewrite Hcases. simpl. rewrite Hfiles.
    split; [assumption|by apply grown_same_files].
Qed.

Lemma unknown_classifier_witness :
  let r := single (Num := Example.numerics) 1 "SVM" "II-A" 42 (-1)
                  (World Example.network_1 []) in
  evaluations (log r.2) = evaluations []
  /\ same_files Example.network_1 (files r.2).
Proof.
  assert (Hclf : ~ In "SVM" ["LogisticRegression"; "RandomForest"; "XGBoost"]).
  { simpl. intros [H|[H|[H|[]]]]; discriminate. }
  destruct (unknown_classifier (Num := Example.numerics) "SVM" Hclf)
    as [_ Hsingle].
  apply (Hsingle 1 "II-A" 42 (-1) (World Example.network_1 [])).
Defined.

(** ** [single]: the files it leaves *)

(** X7: [single] never removes or changes a regular file that exists,
    and it creates at most one new regular file. *)
Theorem single_never_overwrites `{Num : Numerics} (network : Z)
    (clf feature_set : string) (random_state n_jobs : Z) (w : world) :
  let after := files (single network clf feature_set random_state n_jobs w).2 in
  (forall p content,
     files w !! p = Some (File content) -> after !! p = Some (File content))
  /\ (forall p1 p2 c1 c2,
        after !! p1 = Some (File c1) ->
        Fs.is_file_node (files w !! p1) = false ->
        after !! p2 = Some (File c2) ->
        Fs.is_file_node (files w !! p2) = false ->
        p1 = p2 /\ c1 = c2).
Proof.
  intros after. split.
  { apply single_keeps_files. }
  assert (Hold : forall fs p c,
    grown (files w) fs -> fs !! p = Some (File c) ->
    Fs.is_file_node (files w !! p) = true).
  { intros fs p c Hg Hp. apply (grown_same_files _ _ Hg) in Hp.
    by rewrite Hp. }
  subst after.
  destruct (made_dirs (files w) network) as [fs_b|] eqn:Hmk.
  2:{ destruct (single_no_dirs network clf feature_set random_state n_jobs
                  w Hmk) as (p & fs1 & -> & Hg). simpl.
      intros p1 p2 c1 c2 H1 Hn1. rewrite (Hold fs1 p1 c1 Hg H1) in Hn1.
      discriminate. }
  destruct (made_dirs_inv network _ _ Hmk) as (Hg & _ & _).
  destruct (single_files_cases network clf feature_set random_state n_jobs
              w fs_b Hmk) as [->|(q & content & Hq & ->)].
  - intros p1 p2 c1 c2 H1 Hn1. rewrite (Hold fs_b p1 c1 Hg H1) in Hn1.
    discriminate.
  - assert (Hnew : forall p c,
      <[q := File content]> fs_b !! p = Some (File c) ->
      Fs.is_file_node (files w !! p) = false ->
      p = q /\ c = content).
    { intros p c Hp Hn. destruct (decide (q = p)) as [<-|Hne].
      - rewrite lookup_insert_eq in Hp. by injection Hp as <-.
      - rewrite lookup_insert_ne in Hp by done.
        rewrite (Hold fs_b p c Hg Hp) in Hn. discriminate. }
    intros p1 p2 c1 c2 H1 Hn1 H2 Hn2.
    destruct (Hnew p1 c1 H1 Hn1) as [-> ->].
    destruct (Hnew p2 c2 H2 Hn2) as [-> ->]. done.
Qed.



(** ** The batch drivers *)

Section BatchContinues.

Context `{Num : Numerics}.

Abbreviation default_fit := (fits_pipe "LogisticRegression" 42 (-1)).

Lemma all_features_step_continues network f w :
  continues default_fit w (all_features_step network f w).2.
Proof.
  unfold all_features_step. rewrite bind_run. simpl.
  eapply continues_trans; [|apply single_continues].
  apply continues_emit. by intros pipe.
Qed.

Lemma single_all_features_continues network clf random_state n_jobs w :
  continues default_fit w
            (single_all_features network clf random_state n_jobs w).2.
Proof.
  unfold single_all_features. apply for_continues.
  intros f w'. apply all_features_step_continues.
Qed.

Lemma discrete_continues feature_set w :
  continues default_fit w (discrete feature_set w).2.
Proof.
  unfold discrete. apply for_continues. intros i w1.
  apply for_continues. intros f w2.
  apply try_except_continues; [by intros pipe|]. apply single_continues.
Qed.

Lemma all_continues `{Run : Runtime} network clf n_jobs feature_set
    do_shuffle seed w :
  (n_jobs =? -1) || (1 <? n_jobs) = false ->
  continues default_fit w
            (all network clf n_jobs feature_set do_shuffle seed w).2.
Proof.
  intros Hseq. unfold all. rewrite Hseq. apply for_continues.
  intros k w'. apply single_all_features_continues.
Qed.

Lemma default_fit_pipe t pipe :
  Forall default_fit t -> In (Fit pipe) t ->
  pipe = LogisticRegressionPipe 10000 (-1) 42.
Proof.
  rewrite Forall_forall. intros Hfits Hin%list_elem_of_In.
  specialize (Hfits _ Hin pipe eq_refl). by injection Hfits as <-.
Qed.

Lemma feature_sets_relative f :
  In f feature_sets -> Py.startswith f "/" = false.
Proof. simpl. by intros [<-|[<-|[<-|[<-|[<-|[<-|[]]]]]]]. Qed.

(** The loop of [single_all_features] over cached feature sets. *)
Lemma all_features_cached network fs (l : list string) :
  (forall f, In f l ->
     Py.startswith f "/" = false
     /\ Fs.isfile fs (result_path network f "LogisticRegression") = true) ->
  forall lg,
    for_ l (all_features_step network) (World fs lg)
    = (Return tt,
       World fs (lg ++ flat_map (fun f =>
                   [Printed ("network " +:+ pretty network
                             +:+ ", feature " +:+ f);
                    Printed "this is a file"]) l)).
Proof.
  induction l as [|f l IH]; intros Hcached lg; simpl.
  - by rewrite app_nil_r.
  - destruct (Hcached f) as [Hrel Hc]; [by left|].
    rewrite bind_run. unfold all_features_step at 1. rewrite bind_run. simpl.
    unfold single_defaults.
    rewrite single_cached_here by done. simpl.
    rewrite IH by (intros g Hg; apply Hcached; by right).
    by rewrite <-!app_assoc.
Qed.

End BatchContinues.

(** X9: on a network whose six LogisticRegression results are stored,
    [single_all_features] returns having printed its twelve lines:
    it calls neither the loader nor the evaluator and leaves the file
    system as it was. *)
Theorem cached_network_is_skipped `{Num : Numerics} (network : Z)
    (clf : string) (random_state : pyvalue) (n_jobs : Z) (w : world) :
  (forall f, In f feature_sets ->
     Fs.isfile (files w) (result_path network f "LogisticRegression")
     = true) ->
  exists t,
    single_all_features network clf random_state n_jobs w
    = (Return tt, World (files w) (log w ++ t))
    /\ library_calls t = []
    /\ length t = 12%nat.
Proof.
  intros Hcached. eexists. split.
  - unfold single_all_features. destruct w as [fs lg].
    apply all_features_cached. intros f Hf.
    split; [by apply feature_sets_relative|by apply Hcached].
  - split; reflexivity.
Qed.

Lemma cached_network_is_skipped_witness :
  exists t,
    single_all_features (Num := Example.numerics) 1 "XGBoost" (PyInt 0) 8
      (World network_1_done [])
    = (Return tt, World network_1_done ([] ++ t))
    /\ library_calls t = []
    /\ length t = 12%nat.
Proof.
  apply (cached_network_is_skipped (Num := Example.numerics) 1 "XGBoost"
           (PyInt 0) 8 (World network_1_done [])).
  simpl. intros f [<-|[<-|[<-|[<-|[<-|[<-|[]]]]]]]; reflexivity.
Defined.

(** X10: every model fitted in a run of [discrete], of
    [single_all_features] or of the sequential loop of [all] is the
    LogisticRegression pipeline with [max_iter=10000], [n_jobs=-1] and
    [random_state=42], whatever arguments the driver was given. *)
Theorem batch_fits_default_pipeline `{Num : Numerics} :
  let default := LogisticRegressionPipe 10000 (-1) 42 in
  (forall (feature_set : list string) (w : world),
     exists t, log (discrete feature_set w).2 = log w ++ t
               /\ forall pipe, In (Fit pipe) t -> pipe = default)
  /\ (forall (network : Z) (clf : string) (random_state : pyvalue)
            (n_jobs : Z) (w : world),
     exists t,
       log (single_all_features network clf random_state n_jobs w).2
       = log w ++ t
       /\ forall pipe, In (Fit pipe) t -> pipe = default)
  /\ (forall (Run : Runtime) (network : option Z) (clf : string)
            (n_jobs : Z) (feature_set : string) (do_shuffle : bool)
            (seed : Z) (w : world),
     (n_jobs =? -1) || (1 <? n_jobs) = false ->
     exists t,
       log (all network clf n_jobs feature_set do_shuffle seed w).2
       = log w ++ t
       /\ forall pipe, In (Fit pipe) t -> pipe = default).
Proof.
  intros default. split; [|split].
  - intros feature_set w.
    destruct (discrete_continues feature_set w) as (_ & t & Hlog & Hfits).
    exists t. split; [exact Hlog|]. intros pipe. by apply default_fit_pipe.
  - intros network clf random_state n_jobs w.
    destruct (single_all_features_continues network clf random_state n_jobs w)
      as (_ & t & Hlog & Hfits).
    exists t. split; [exact Hlog|]. intros pipe. by apply default_fit_pipe.
  - intros Run network clf n_jobs feature_set do_shuffle seed w Hseq.
    destruct (all_continues network clf n_jobs feature_set do_shuffle seed
                w Hseq) as (_ & t & Hlog & Hfits).
    exists t. split; [exact Hlog|]. intros pipe. by apply default_fit_pipe.
Qed.

(** X11: a run of [discrete], of [single_all_features] or of the
    sequential loop of [all] never removes or changes a regular file
    that exists: stored results and inputs are kept as they are. *)
Theorem batch_never_overwrites `{Num : Numerics} (p : path)
    (content : string) (w : world) :
  files w !! p = Some (File content) ->
  (forall feature_set : list string,
     files (discrete feature_set w).2 !! p = Some (File content))
  /\ (forall (network : Z) (clf : string) (random_state : pyvalue)
            (n_jobs : Z),
     files (single_all_features network clf random_state n_jobs w).2 !! p
     = Some (File content))
  /\ (forall (Run : Runtime) (network : option Z) (clf : string)
            (n_jobs : Z) (feature_set : string) (do_shuffle : bool)
            (seed : Z),
     (n_jobs =? -1) || (1 <? n_jobs) = false ->
     files (all network clf n_jobs feature_set do_shuffle seed w).2 !! p
     = Some (File content)).
Proof.
  intros Hp. split; [|split].
  - intros feature_set.
    by apply (discrete_continues feature_set w).
  - intros network clf random_state n_jobs.
    by apply (single_all_features_continues network clf random_state n_jobs w).
  - intros Run network clf n_jobs feature_set do_shuffle seed Hseq.
    by apply (all_continues network clf n_jobs feature_set do_shuffle seed
                w Hseq).
Qed.

Lemma batch_never_overwrites_witness :
  let p := ["data"; "s1620444"; "01"; "properties";
            "II-A_LogisticRegression.float"] in
  let w := World Example.network_1_cached [] in
  files (discrete (Num := Example.numerics) feature_sets w).2 !! p
  = Some (File "0.75")
  /\ files (single_all_features (Num := Example.numerics) 1 "XGBoost"
              (PyInt 3) 2 w).2 !! p
     = Some (File "0.75").
Proof.
  intros p w.
  destruct (batch_never_overwrites (Num := Example.numerics) p "0.75" w)
    as (Hdiscrete & Hfeatures & _); [reflexivity|].
  split; [apply Hdiscrete|apply Hfeatures].
Defined.

(** ** [predict] when every step succeeds *)

Section PredictSuccess.

Context `{Num : Numerics}.

Lemma load_columns_ok fs feature_dir names columns lg :
  read_columns fs feature_dir names = Some columns ->
  load_columns feature_dir names (World fs lg)
  = (Return columns,
     World fs (lg ++ map (fun name => NpLoad (Fs.join feature_dir name))
                         names)).
Proof.
  unfold load_columns. revert columns lg.
  induction names as [|name rest IH]; intros columns lg; simpl.
  - intros [= <-]. by rewrite app_nil_r.
  - destruct (Fs.read_bytes fs (Fs.join feature_dir name)) as [bytes|] eqn:Hb;
      [|done].
    destruct (np_load bytes) as [a|e] eqn:Ha; [|done].
    destruct (read_columns fs feature_dir rest) as [cols|] eqn:Hrest; [|done].
    intros [= <-].
    rewrite bind_run, bind_run. simpl. rewrite bind_run.
    unfold Os.read_bytes at 1. simpl. rewrite Hb.
    rewrite bind_run. simpl. rewrite Ha. simpl.
    rewrite bind_run, (IH cols) by reflexivity. simpl.
    by rewrite <-app_assoc.
Qed.

Lemma for_print fs (lines : list string) lg :
  for_ lines print (World fs lg)
  = (Return tt, World fs (lg ++ map Printed lines)).
Proof.
  revert lg. induction lines as [|line rest IH]; intros lg; simpl.
  - by rewrite app_nil_r.
  - rewrite bind_run. simpl. rewrite IH. by rewrite <-app_assoc.
Qed.

End PredictSuccess.

(** X12: when the directory, its [features/] and [samples.pkl] are
    there and every library call succeeds, [predict] returns the AUC of
    the one model it fits; it loads the selected entries in the order of
    the directory listing, prints their names, reads the labels, splits
    and fits, in this order, and leaves the files alone. *)
Theorem predict_success `{Num : Numerics} (directory feature_set clf : string)
    (random_state n_jobs : Z) (w : world) (check : string -> bool)
    (entries : list string) (columns : list (string * ndarray)) (X : frame)
    (bytes : string) (y : labels) (parts : split) (pipe : estimator)
    (auc : auc_t) :
  let feature_dir := Fs.join directory "features" in
  let samples_filepath := Fs.join directory "samples.pkl" in
  let selected := List.filter check entries in
  select_check feature_set = Some check ->
  Fs.isdir (files w) directory = true ->
  Fs.scandir (files w) feature_dir = Some entries ->
  Fs.read_bytes (files w) samples_filepath = Some bytes ->
  read_columns (files w) feature_dir selected = Some columns ->
  DataFrame columns = Return X ->
  read_pickle bytes = Return y ->
  train_test_split X y random_state = Return parts ->
  make_pipe clf random_state n_jobs = Some pipe ->
  fit_and_score pipe parts = Return auc ->
  predict directory feature_set clf random_state n_jobs w
  = (Return (Some auc),
     World (files w)
           (log w
            ++ map (fun name => NpLoad (Fs.join feature_dir name)) selected
            ++ map Printed selected
            ++ [ReadPickle samples_filepath; TrainTestSplit random_state;
                Fit pipe])).
Proof.
  intros feature_dir samples_filepath selected
    Hsel Hd Hscan Hbytes Hcols HX Hy Hparts Hpipe Hauc.
  assert (Hf : Fs.isdir (files w) feature_dir = true).
  { revert Hscan. unfold Fs.scandir, Fs.isdir.
    destruct (Fs.resolve (files w) feature_dir) as [q|]; [|done].
    by destruct (Fs.is_dir_node (Fs.node_at (files w) q)). }
  assert (Hs : Fs.isfile (files w) samples_filepath = true).
  { revert Hbytes. unfold Fs.read_bytes, Fs.isfile.
    destruct (Fs.resolve (files w) samples_filepath) as [q|]; [|done].
    by destruct (Fs.node_at (files w) q) as [[|?]|]. }
  destruct w as [fs lg]. simpl in *.
  unfold predict. rewrite Hsel.
  rewrite bind_run. simpl. rewrite bind_run. unfold Os.isdir at 1. simpl.
  rewrite Hd. rewrite bind_run. simpl. rewrite bind_run.
  unfold Os.isdir at 1. simpl. fold feature_dir. rewrite Hf. simpl.
  rewrite bind_run. unfold Os.isfile at 1. simpl.
  fold samples_filepath. rewrite Hs.
  rewrite bind_run. simpl. rewrite bind_run.
  unfold Os.scandir at 1. simpl. rewrite Hscan.
  rewrite bind_run. fold selected. rewrite (load_columns_ok _ _ _ columns) by done.
  rewrite bind_run. simpl. rewrite HX. simpl.
  rewrite bind_run. unfold Os.scandir at 1. simpl. rewrite Hscan.
  rewrite bind_run. fold selected. rewrite for_print.
  rewrite bind_run. simpl. rewrite bind_run.
  unfold Os.read_bytes at 1. simpl. rewrite Hbytes.
  rewrite bind_run. simpl. rewrite Hy. simpl.
  rewrite bind_run. simpl. rewrite bind_run. simpl. rewrite Hparts. simpl.
  rewrite Hpipe. rewrite bind_run. simpl. rewrite bind_run. simpl.
  rewrite bind_run. simpl. rewrite Hauc. simpl.
  by rewrite <-!app_assoc.
Qed.

Lemma predict_success_witness :
  predict (Num := Example.numerics) "/data/s1620444/01" "III-A" "XGBoost"
          7 (-2) (World Example.network_1 [])
  = (Return (Some "0.75"),
     World Example.network_1
       [NpLoad "/data/s1620444/01/features/na_x.npy"; Printed "na_x.npy";
        ReadPickle "/data/s1620444/01/samples.pkl"; TrainTestSplit 7;
        Fit (XGBClassifier 100 7)]).
Proof.
  apply (predict_success (Num := Example.numerics) "/data/s1620444/01"
           "III-A" "XGBoost" 7 (-2) (World Example.network_1 [])
           check_III_A ["na_x.npy"; "aa.npy"] [("na_x.npy", "5678")]
           [("na_x.npy", "5678")] "0101" "0101"
           ([("na_x.npy", "5678")], "0101") (XGBClassifier 100 7) "0.75");
    reflexivity.
Defined.

(** ** The arguments of [single_all_features] *)

Lemma single_all_features_defaults `{Num : Numerics} (network : Z)
    (clf : string) (random_state : pyvalue) (n_jobs : Z) :
  single_all_features network clf random_state n_jobs
  = for_ feature_sets (fun f =>
      print ("network " +:+ pretty network +:+ ", feature " +:+ f);;
      single network "LogisticRegression" f 42 (-1)).
Proof. reflexivity. Qed.

Section FirstEvaluation.

Context `{Num : Numerics}.

(** [predict] up to its fit: when the directory, the selected columns
    and the labels load and the split succeeds, the model of the
    arguments is fitted, and the outcome is that of the fit and score. *)
Lemma predict_reaches_fit directory feature_set clf random_state n_jobs w
    check entries columns X bytes y parts pipe :
  let feature_dir := Fs.join directory "features" in
  let samples_filepath := Fs.join directory "samples.pkl" in
  let selected := List.filter check entries in
  select_check feature_set = Some check ->
  Fs.isdir (files w) directory = true ->
  Fs.scandir (files w) feature_dir = Some entries ->
  Fs.read_bytes (files w) samples_filepath = Some bytes ->
  read_columns (files w) feature_dir selected = Some columns ->
  DataFrame columns = Return X ->
  read_pickle bytes = Return y ->
  train_test_split X y random_state = Return parts ->
  make_pipe clf random_state n_jobs = Some pipe ->
  predict directory feature_set clf random_state n_jobs w
  = (match fit_and_score pipe parts with
     | Return auc => Return (Some auc)
     | Raise e => Raise e
     end,
     World (files w)
           (log w
            ++ map (fun name => NpLoad (Fs.join feature_dir name)) selected
            ++ map Printed selected
            ++ [ReadPickle samples_filepath; TrainTestSplit random_state;
                Fit pipe])).
Proof.
  intros feature_dir samples_filepath selected
    Hsel Hd Hscan Hbytes Hcols HX Hy Hparts Hpipe.
  assert (Hf : Fs.isdir (files w) feature_dir = true).
  { revert Hscan. unfold Fs.scandir, Fs.isdir.
    destruct (Fs.resolve (files w) feature_dir) as [q|]; [|done].
    by destruct (Fs.is_dir_node (Fs.node_at (files w) q)). }
  assert (Hs : Fs.isfile (files w) samples_filepath = true).
  { revert Hbytes. unfold Fs.read_bytes, Fs.isfile.
    destruct (Fs.resolve (files w) samples_filepath) as [q|]; [|done].
    by destruct (Fs.node_at (files w) q) as [[|?]|]. }
  destruct w as [fs lg]. simpl in *.
  unfold predict. rewrite Hsel.
  rewrite bind_run. simpl. rewrite bind_run. unfold Os.isdir at 1. simpl.
  rewrite Hd. rewrite bind_run. simpl. rewrite bind_run.
  unfold Os.isdir at 1. simpl. fold feature_dir. rewrite Hf. simpl.
  rewrite bind_run. unfold Os.isfile at 1. simpl.
  fold samples_filepath. rewrite Hs.
  rewrite bind_run. simpl. rewrite bind_run.
  unfold Os.scandir at 1. simpl. rewrite Hscan.
  rewrite bind_run. fold selected. rewrite (load_columns_ok _ _ _ columns) by done.
  rewrite bind_run. simpl. rewrite HX. simpl.
  rewrite bind_run. unfold Os.scandir at 1. simpl. rewrite Hscan.
  rewrite bind_run. fold selected. rewrite for_print.
  rewrite bind_run. simpl. rewrite bind_run.
  unfold Os.read_bytes at 1. simpl. rewrite Hbytes.
  rewrite bind_run. simpl. rewrite Hy. simpl.
  rewrite bind_run. simpl. rewrite bind_run. simpl. rewrite Hparts. simpl.
  rewrite Hpipe. rewrite bind_run. simpl. rewrite bind_run. simpl.
  rewrite bind_run. simpl. rewrite <-!app_assoc.
  by destruct (fit_and_score pipe parts).
Qed.

(** The evaluation branch of [single] only adds to the log of its
    [predict]. *)
Lemma evaluate_and_store_log network clf feature_set random_state n_jobs w :
  exists t,
    log (evaluate_and_store network clf feature_set random_state n_jobs w).2
    = log (predict (network_directory network) feature_set clf random_state
                   n_jobs w).2 ++ t.
Proof.
  pose proof (evaluate_and_store_cases network clf feature_set random_state
                n_jobs w) as Hcases.
  simpl in Hcases.
  destruct (predict _ _ _ _ _ w) as [[[a|]|e] w1]; simpl in *.
  - destruct (Fs.write_text _ _ _); rewrite Hcases; simpl; eauto.
  - rewrite Hcases. simpl. eauto.
  - rewrite Hcases. simpl. exists []. by rewrite app_nil_r.
Qed.

(** A loop only adds to the log of its first step. *)
Lemma for_first_log {A} P (x : A) (l : list A) (body : A -> M unit) w :
  (forall y w', continues P w' (body y w').2) ->
  exists t, log (for_ (x :: l) body w).2 = log (body x w).2 ++ t.
Proof.
  intros Hbody. simpl. rewrite bind_run.
  destruct (body x w) as [[[]|e] w1]; simpl.
  - destruct (for_continues P l body Hbody w1) as (_ & t & Hlog & _). eauto.
  - exists []. by rewrite app_nil_r.
Qed.

(** The first evaluation of [single_all_features]: feature set I, with
    the defaults of [single]. *)
Lemma single_all_features_first network clf random_state n_jobs w
    fs_b entries bytes columns X y parts :
  let directory := network_directory network in
  let feature_dir := Fs.join directory "features" in
  let samples_filepath := Fs.join directory "samples.pkl" in
  let selected := List.filter check_I entries in
  made_dirs (files w) network = Some fs_b ->
  Fs.isfile fs_b (result_path network "I" "LogisticRegression") = false ->
  Fs.scandir fs_b feature_dir = Some entries ->
  Fs.read_bytes fs_b samples_filepath = Some bytes ->
  read_columns fs_b feature_dir selected = Some columns ->
  DataFrame columns = Return X ->
  read_pickle bytes = Return y ->
  train_test_split X y 42 = Return parts ->
  exists t,
    log (single_all_features network clf random_state n_jobs w).2
    = log w
      ++ [Printed ("network " +:+ pretty network +:+ ", feature I")]
      ++ map (fun name => NpLoad (Fs.join feature_dir name)) selected
      ++ map Printed selected
      ++ [ReadPickle samples_filepath; TrainTestSplit 42;
          Fit (LogisticRegressionPipe 10000 (-1) 42)]
      ++ t.
Proof.
  intros directory feature_dir samples_filepath selected
    Hmk Hc Hscan Hbytes Hcols HX Hy Hparts.
  destruct (made_dirs_inv network _ _ Hmk) as (_ & Hd & _).
  unfold single_all_features, feature_sets.
  destruct (for_first_log (fits_pipe "LogisticRegression" 42 (-1)) "I"
              ["II-A"; "II-B"; "III-A"; "III-B"; "I+II-A+III-A"]
              (all_features_step network) w) as (t1 & ->).
  { intros f w'. apply all_features_step_continues. }
  unfold all_features_step at 1. rewrite bind_run. simpl.
  unfold single_defaults.
  rewrite (single_fresh _ _ _ _ _ _ fs_b) by done. simpl.
  match goal with |- context [World fs_b ?l] => set (lg := l) end.
  destruct (evaluate_and_store_log network "LogisticRegression" "I" 42 (-1)
              (World fs_b lg)) as (t2 & ->).
  rewrite (predict_reaches_fit _ _ _ _ _ _ check_I entries columns X bytes y
             parts (LogisticRegressionPipe 10000 (-1) 42)) by done.
  simpl. exists (t2 ++ t1). subst lg. by rewrite <-!app_assoc.
Qed.

End FirstEvaluation.

(** C3 (fails on the code): [single_all_features] does not pass its
    [clf], [random_state] and [n_jobs] on: its run is the same whatever
    they are, every model it fits is the LogisticRegression pipeline
    with [max_iter=10000], [n_jobs=-1] and [random_state=42], and the
    estimator its arguments ask for, when it is another one, is never
    fitted.  On a network with no stored LogisticRegression result for
    feature set I whose selected features and labels load and split,
    the first evaluation splits with seed 42 and fits that default
    pipeline. *)
Theorem single_all_features_ignores_clf `{Num : Numerics} (network : Z)
    (clf : string) (random_state n_jobs : Z) (w : world) :
  let default := LogisticRegressionPipe 10000 (-1) 42 in
  let r := single_all_features network clf (PyInt random_state) n_jobs w in
  (forall (clf' : string) (random_state' : pyvalue) (n_jobs' : Z),
     single_all_features network clf' random_state' n_jobs' w = r)
  /\ exists t,
       log r.2 = log w ++ t
       /\ (forall pipe, In (Fit pipe) t -> pipe = default)
       /\ (forall pipe,
             make_pipe clf random_state n_jobs = Some pipe ->
             pipe <> default -> ~ In (Fit pipe) t)
       /\ (forall fs_b entries bytes columns X y,
             let directory := network_directory network in
             let feature_dir := Fs.join directory "features" in
             let samples_filepath := Fs.join directory "samples.pkl" in
             let selected := List.filter check_I entries in
             made_dirs (files w) network = Some fs_b ->
             Fs.isfile fs_b (result_path network "I" "LogisticRegression")
             = false ->
             Fs.scandir fs_b feature_dir = Some entries ->
             Fs.read_bytes fs_b samples_filepath = Some bytes ->
             read_columns fs_b feature_dir selected = Some columns ->
             DataFrame columns = Return X ->
             read_pickle bytes = Return y ->
             (forall seed, exists parts,
                train_test_split X y seed = Return parts) ->
             exists t',
               t = [Printed ("network " +:+ pretty network +:+ ", feature I")]
                   ++ map (fun name => NpLoad (Fs.join feature_dir name))
                          selected
                   ++ map Printed selected
                   ++ [ReadPickle samples_filepath; TrainTestSplit 42;
                       Fit default]
                   ++ t').
Proof.
  intros default r. split; [reflexivity|].
  destruct (single_all_features_continues network clf (PyInt random_state)
              n_jobs w) as (_ & t & Hlog & Hfits).
  exists t. split; [exact Hlog|].
  assert (Hall : forall pipe, In (Fit pipe) t -> pipe = default).
  { intros pipe. by apply default_fit_pipe. }
  split; [exact Hall|]. split.
  - intros pipe _ Hother Hin. by apply Hother, Hall.
  - intros fs_b entries bytes columns X y directory feature_dir
      samples_filepath selected Hmk Hc Hscan Hbytes Hcols HX Hy Hsplit.
    destruct (Hsplit 42) as [parts Hparts].
    destruct (single_all_features_first network clf (PyInt random_state)
                n_jobs w fs_b entries bytes columns X y parts Hmk
                Hc Hscan Hbytes Hcols HX Hy Hparts)
      as (t' & Hfirst).
    exists t'. apply (app_inv_head (log w)).
    rewrite <-Hlog. exact Hfirst.
Qed.

Lemma single_all_features_ignores_clf_witness :
  let r := single_all_features (Num := Example.numerics) 1 "RandomForest"
             (PyInt 7) 4 (World Example.network_1 []) in
  (exists t',
     log r.2
     = [Printed "network 1, feature I";
        NpLoad "/data/s1620444/01/features/aa.npy"; Printed "aa.npy";
        ReadPickle "/data/s1620444/01/samples.pkl"; TrainTestSplit 42;
        Fit (LogisticRegressionPipe 10000 (-1) 42)] ++ t')
  /\ ~ In (Fit (RandomForestPipe 7 4)) (log r.2).
Proof.
  intros r.
  destruct (single_all_features_ignores_clf (Num := Example.numerics) 1
              "RandomForest" 7 4 (World Example.network_1 []))
    as (_ & t & Hlog & _ & Hnot & Hfirst).
  fold r in Hlog. simpl in Hlog. rewrite Hlog. split.
  - apply (Hfirst
             (<[ ["data"; "s1620444"; "01"; "properties"] := Dir ]>
                Example.network_1)
             ["na_x.npy"; "aa.npy"] "0101" [("aa.npy", "1234")]
             [("aa.npy", "1234")] "0101").
    + reflexivity.
    + reflexivity.
    + reflexivity.
    + reflexivity.
    + reflexivity.
    + reflexivity.
    + reflexivity.
    + intros seed. by eexists.
  - apply (Hnot (RandomForestPipe 7 4)); [reflexivity|discriminate].
Defined.
